(** * Binance futures trading bot: order submission, validation and closing

    A shallow embedding of [src/trading_bot.py] (class [BasicBot]) and the
    properties of its retry loop, its instrument validator and its position
    closer.

    Conventions of the embedding.
    - The exchange client ([binance.Client]) is an external collaborator.  It
      is modelled as a _scripted_ client: for every endpoint, the reply to the
      n-th call of that endpoint (and, for order creation, to the request
      sent) is given by a function.  A reply is a value or a raised exception.
    - The bot runs in a world that holds the scripted client, the wall clock
      ([time.time()], scripted in the same way), the field
      [self.time_offset], the chronological trace of every client call, clock
      reading and sleep, and the records handed to [self.logger].
    - A Python [float] is modelled by the rational number it is ([Q]).
      Comparisons, [abs] and [int] are exact on floats; the product, the
      sum, the quotient and the remainder of two floats are rounded to the
      nearest binary64, ties to even ([round64]), and a quotient beyond the
      largest binary64 is an infinity.  Clock readings and server times are those
      of a calendar: the clock arithmetic stays far below that bound, and
      the model does not bound it.  The fields of the JSON replies
      ([float(lot_size['minQty'])], [float(p['positionAmt'])]) are held as
      the floats that [float] makes of them.
    - A log record keeps the level, the constant head of the formatted
      message and the exception interpolated into it, if any. *)

From Stdlib Require Import ZArith QArith Qround Qabs String List Bool Lia Lqa.
From stdpp Require Import base option gmap strings.
Import ListNotations.
Local Open Scope Z_scope.
Local Open Scope string_scope.
Local Open Scope list_scope.

(** ** Exceptions and outcomes *)

(** The exception classes that reach the bot.  All of them derive from
    Python's [Exception]; only the first is [BinanceAPIException], the error
    the exchange reports with a numeric [code]. *)
Inductive exn : Type :=
| BinanceAPIException (code : Z) (message : string)
| BinanceRequestException (message : string)
| ConnectionError (message : string)
| ValueError (message : string)
| KeyError (key : string)
| ZeroDivisionError (message : string).

Inductive outcome (A : Type) : Type :=
| Returns (a : A)
| Raises (e : exn).
Arguments Returns {A} a.
Arguments Raises {A} e.

(** ** Data exchanged with the client *)

(** Keyword arguments of [client.futures_create_order]. *)
Record OrderRequest : Type := {
  req_symbol : string;
  req_side : string;
  req_type : string;
  req_timeInForce : option string;
  req_quantity : Q;
  req_price : option Q;
  req_stopPrice : option Q;
  req_timestamp : option Z
}.

(** The order dictionary the exchange answers with. *)
Record OrderResponse : Type := {
  orderId : Z;
  o_symbol : string;
  o_side : string;
  o_type : string;
  origQty : Q;
  executedQty : Q;
  o_status : string
}.

(** One entry of [info['symbols'][i]['filters']]. *)
Record Filter : Type := {
  filterType : string;
  minQty : Q;
  maxQty : Q;
  stepSize : Q
}.

(** One entry of [info['symbols']]. *)
Record SymbolInfo : Type := {
  s_symbol : string;
  s_status : string;
  s_filters : list Filter
}.

(** One entry of [client.futures_position_information()]. *)
Record Position : Type := {
  p_symbol : string;
  positionAmt : Q;
  entryPrice : Q;
  markPrice : Q;
  unRealizedProfit : Q
}.

(** The scripted client: the reply of each endpoint to its n-th call. *)
Record Client : Type := {
  get_server_time : nat -> outcome Z;
  futures_exchange_info : nat -> outcome (list SymbolInfo);
  futures_position_information : nat -> outcome (list Position);
  futures_create_order : nat -> OrderRequest -> outcome OrderResponse
}.

(** ** The world *)

Inductive Event : Type :=
| EvGetServerTime (reply : outcome Z)
| EvExchangeInfo
| EvPositionInformation
| EvCreateOrder (req : OrderRequest) (reply : outcome OrderResponse)
| EvTime (t : Q)
| EvSleep (seconds : Z).

Inductive Level : Type := INFO | WARNING | ERROR.

Record LogRecord : Type := {
  levelname : Level;
  msg : string;
  exc : option exn
}.

Record World : Type := {
  client : Client;
  wall_clock : nat -> Q;
  time_offset : Z;
  trace : list Event;
  log : list LogRecord
}.

Definition is_get_server_time (e : Event) : bool :=
  match e with EvGetServerTime _ => true | _ => false end.
Definition is_exchange_info (e : Event) : bool :=
  match e with EvExchangeInfo => true | _ => false end.
Definition is_position_information (e : Event) : bool :=
  match e with EvPositionInformation => true | _ => false end.
Definition is_create_order (e : Event) : bool :=
  match e with EvCreateOrder _ _ => true | _ => false end.
Definition is_time (e : Event) : bool :=
  match e with EvTime _ => true | _ => false end.
Definition is_sleep (e : Event) : bool :=
  match e with EvSleep _ => true | _ => false end.

(** A call of any endpoint of the client. *)
Definition is_gateway_call (e : Event) : bool :=
  match e with
  | EvGetServerTime _ | EvExchangeInfo | EvPositionInformation
  | EvCreateOrder _ _ => true
  | EvTime _ | EvSleep _ => false
  end.

Fixpoint count (p : Event -> bool) (l : list Event) : nat :=
  match l with
  | [] => 0%nat
  | e :: l' => ((if p e then 1 else 0) + count p l')%nat
  end.

Definition record_event (e : Event) (w : World) : World :=
  {| client := client w; wall_clock := wall_clock w;
     time_offset := time_offset w;
     trace := trace w ++ [e]; log := log w |}.

(** ** Computations *)

(** A method of the bot: from a world to an outcome and the world it
    leaves. *)
Definition Py (A : Type) : Type := World -> outcome A * World.

#[export] Instance Py_ret : MRet Py :=
  fun A (a : A) w => (Returns a, w).

#[export] Instance Py_bind : MBind Py :=
  fun A B (k : A -> Py B) (m : Py A) w =>
    match m w with
    | (Returns a, w') => k a w'
    | (Raises e, w') => (Raises e, w')
    end.

Definition raise {A : Type} (e : exn) : Py A :=
  fun w => (Raises e, w).

(** [try: body  except C as e: handler]: [handler e] is [None] when [e] is
    not an instance of the class [C]. *)
Definition try_except {A : Type} (body : Py A)
    (handler : exn -> option (Py A)) : Py A :=
  fun w =>
    match body w with
    | (Returns a, w') => (Returns a, w')
    | (Raises e, w') =>
        match handler e with
        | Some h => h w'
        | None => (Raises e, w')
        end
    end.

(** How one pass through the body of a [for] loop ends. *)
Inductive ctl (A : Type) : Type :=
| Continue
| Return_ (a : A).
Arguments Continue {A}.
Arguments Return_ {A} a.

(** [range(n)] *)
Definition range (n : Z) : list Z :=
  map Z.of_nat (seq 0 (Z.to_nat n)).

(** ** Primitive effects *)

Definition client_get_server_time : Py Z :=
  fun w =>
    let r := get_server_time (client w) (count is_get_server_time (trace w)) in
    (r, record_event (EvGetServerTime r) w).

Definition client_futures_exchange_info : Py (list SymbolInfo) :=
  fun w =>
    let r := futures_exchange_info (client w)
               (count is_exchange_info (trace w)) in
    (r, record_event EvExchangeInfo w).

Definition client_futures_position_information : Py (list Position) :=
  fun w =>
    let r := futures_position_information (client w)
               (count is_position_information (trace w)) in
    (r, record_event EvPositionInformation w).

Definition client_futures_create_order (req : OrderRequest)
    : Py OrderResponse :=
  fun w =>
    let r := futures_create_order (client w)
               (count is_create_order (trace w)) req in
    (r, record_event (EvCreateOrder req r) w).

(** [time.time()], in seconds. *)
Definition time_time : Py Q :=
  fun w =>
    let t := wall_clock w (count is_time (trace w)) in
    (Returns t, record_event (EvTime t) w).

(** [time.sleep(seconds)] *)
Definition time_sleep (seconds : Z) : Py unit :=
  fun w => (Returns tt, record_event (EvSleep seconds) w).

Definition get_time_offset : Py Z :=
  fun w => (Returns (time_offset w), w).

Definition set_time_offset (z : Z) : Py unit :=
  fun w =>
    (Returns tt,
     {| client := client w; wall_clock := wall_clock w; time_offset := z;
        trace := trace w; log := log w |}).

Definition logger (lvl : Level) (m : string) (e : option exn) : Py unit :=
  fun w =>
    (Returns tt,
     {| client := client w; wall_clock := wall_clock w;
        time_offset := time_offset w; trace := trace w;
        log := log w ++ [{| levelname := lvl; msg := m; exc := e |}] |}).

(** ** Python arithmetic *)

(** The integer nearest to [n / d], the even one of the two when [n / d]
    lies half way; for [n >= 0] and [d > 0]. *)
Definition round_half_even (n d : Z) : Z :=
  let q := n / d in
  let r := n mod d in
  match 2 * r ?= d with
  | Lt => q
  | Gt => q + 1
  | Eq => if Z.even q then q else q + 1
  end.

(** The integer part of the binary logarithm of [n / d]; for [n > 0] and
    [d > 0]. *)
Definition log2_ratio (n d : Z) : Z :=
  let l := Z.log2 n - Z.log2 d in
  if (l >=? 0)%Z
  then (if (d * 2 ^ l <=? n)%Z then l else l - 1)
  else (if (d <=? n * 2 ^ (- l))%Z then l else l - 1).

(** The binary64 nearest to [n / d], for [n > 0] and [d > 0]: 53 significant
    bits, the last of them no finer than [2 ^ -1074]. *)
Definition round64_pos (n d : Z) : Q :=
  let e := Z.max (log2_ratio n d - 52) (-1074) in
  if (e >=? 0)%Z
  then inject_Z (round_half_even n (d * 2 ^ e) * 2 ^ e)
  else Qmake (round_half_even (n * 2 ^ (- e)) d) (Z.to_pos (2 ^ (- e))).

(** The binary64 nearest to [x], ties to even. *)
Definition round64 (x : Q) : Q :=
  match Qnum (Qred x) with
  | Z0 => 0%Q
  | Zpos n => round64_pos (Zpos n) (Zpos (Qden (Qred x)))
  | Zneg n => (- round64_pos (Zpos n) (Zpos (Qden (Qred x))))%Q
  end.

(** [x * y] and [x + y] on floats. *)
Definition float_mul (x y : Q) : Q := round64 (x * y).
Definition float_add (x y : Q) : Q := round64 (x + y).

(** [float(z)], the conversion that [x + z] applies to an [int] added to a
    float. *)
Definition float_of_int (z : Z) : Q := round64 (inject_Z z).

(** The result of a float operation that can leave the numbers: a number,
    an infinity, or not a number. *)
Inductive pyfloat : Type :=
| Num (q : Q)
| Inf
| NaN.

(** [q], rounded, as a binary64: an infinity from [2 ^ 1024] on. *)
Definition to_binary64 (q : Q) : pyfloat :=
  if Qle_bool (inject_Z (2 ^ 1024)) (Qabs (round64 q)) then Inf
  else Num (round64 q).

(** [int(x)] on a float: truncation towards zero. *)
Definition py_int (x : Q) : Z := Z.quot (Qnum x) (Zpos (Qden x)).

(** [x / y] on floats. *)
Definition py_truediv (x y : Q) : Py pyfloat :=
  if Qeq_bool y 0 then raise (ZeroDivisionError "float division by zero")
  else mret (to_binary64 (x / y)).

(** [x % y] on floats, for [y] other than zero: the remainder has the sign
    of [y]; it is the exact remainder, rounded once. *)
Definition py_mod (x y : Q) : Q :=
  round64 (x - y * inject_Z (Qfloor (x / y))).

(** [x % y] on the result of an operation: the remainder of an infinity is
    not a number. *)
Definition float_mod (x : pyfloat) (y : Q) : pyfloat :=
  match x with
  | Num q => Num (py_mod q y)
  | Inf | NaN => NaN
  end.

(** [x != y]: what is not a number differs from everything. *)
Definition float_ne (x : pyfloat) (y : Q) : bool :=
  match x with
  | Num q => negb (Qeq_bool q y)
  | Inf | NaN => true
  end.

Arguments round64 : simpl never.
Arguments float_mul : simpl never.
Arguments float_add : simpl never.
Arguments float_of_int : simpl never.
Arguments to_binary64 : simpl never.
Arguments py_int : simpl never.
Arguments py_mod : simpl never.

Definition Qltb (x y : Q) : bool := negb (Qle_bool y x).

(** [d[k]] on a dictionary keyed by strings. *)
Definition getitem {V : Type} (d : gmap string V) (k : string) : Py V :=
  match d !! k with
  | Some v => mret v
  | None => raise (KeyError k)
  end.

(** ** The loop shape shared by the methods *)

(** [for x in xs: body], where the body may [return] from the enclosing
    function ([Return_]) or go on to the next element ([Continue]).  The
    result [Continue] means that the loop ran to its end. *)
Fixpoint for_in {X A : Type} (xs : list X) (body : X -> Py (ctl A))
    : Py (ctl A) :=
  match xs with
  | [] => mret Continue
  | x :: xs' =>
      c ← body x;
      match c with
      | Continue => for_in xs' body
      | Return_ a => mret (Return_ a)
      end
  end.

(** ** class BasicBot *)

(** [sync_time(self)] *)
Definition sync_time : Py unit :=
  try_except
    (server_time ← client_get_server_time;
     now ← time_time;
     let local_time := py_int (float_mul now 1000) in
     set_time_offset (server_time - local_time);;
     logger INFO "Time synchronized. Offset: " None)
    (fun e =>
       Some (logger WARNING "Time sync failed: " (Some e);;
             set_time_offset 0)).

(** [validate_symbol(self, symbol)] *)
Definition validate_symbol (symbol : string) : Py bool :=
  try_except
    (info ← client_futures_exchange_info;
     c ← for_in info (fun s =>
           if String.eqb (s_symbol s) symbol
              && String.eqb (s_status s) "TRADING"
           then mret (Return_ true)
           else mret Continue);
     match c with
     | Return_ b => mret b
     | Continue => mret false
     end)
    (fun e =>
       match e with
       | BinanceAPIException _ _ =>
           Some (logger ERROR "Error validating symbol: " (Some e);;
                 mret false)
       | _ => None
       end).

(** [{f['filterType']: f for f in s['filters']}]: a later filter of the same
    type replaces an earlier one. *)
Definition filters_by_type (fs : list Filter) : gmap string Filter :=
  foldl (fun d f => <[filterType f := f]> d) ∅ fs.

(** [validate_quantity(self, symbol, quantity)] *)
Definition validate_quantity (symbol : string) (quantity : Q) : Py bool :=
  try_except
    (info ← client_futures_exchange_info;
     c ← for_in info (fun s =>
           if String.eqb (s_symbol s) symbol then
             let filters := filters_by_type (s_filters s) in
             lot_size ← getitem filters "LOT_SIZE";
             let min_qty := minQty lot_size in
             let max_qty := maxQty lot_size in
             let step_size := stepSize lot_size in
             if Qltb quantity min_qty || Qltb max_qty quantity
             then mret (Return_ false)
             else
               ratio ← py_truediv quantity step_size;
               if float_ne (float_mod ratio 1) 0
               then mret (Return_ false)
               else mret (Return_ true)
           else mret Continue);
     match c with
     | Return_ b => mret b
     | Continue => mret false
     end)
    (fun e =>
       match e with
       | BinanceAPIException _ _ =>
           Some (logger ERROR "Error validating quantity: " (Some e);;
                 mret false)
       | _ => None
       end).

(** One pass through the body of the [for attempt in range(retries)]
    loop of [place_market_order]. *)
Definition market_order_attempt (symbol side : string) (quantity : Q)
    (retries attempt : Z) : Py (ctl (option OrderResponse)) :=
  try_except
    (sync_time;;
     logger INFO "Placing market order" None;;
     now ← time_time;
     offset ← get_time_offset;
     order ← client_futures_create_order
               {| req_symbol := symbol;
                  req_side := side;
                  req_type := "MARKET";
                  req_timeInForce := None;
                  req_quantity := quantity;
                  req_price := None;
                  req_stopPrice := None;
                  req_timestamp :=
                    Some (py_int (float_add (float_mul now 1000)
                                    (float_of_int offset))) |};
     logger INFO "Market order executed: " None;;
     mret (Return_ (Some order)))
    (fun e =>
       match e with
       | BinanceAPIException code _ =>
           Some (if (code =? -1021)%Z && (attempt <? retries - 1)%Z
                 then time_sleep 1;; mret Continue
                 else logger ERROR "Market order failed: " (Some e);;
                      mret (Return_ None))
       | _ => None
       end).

(** [place_market_order(self, symbol, side, quantity, retries=3)] *)
Definition place_market_order (symbol side : string) (quantity : Q)
    (retries : Z) : Py (option OrderResponse) :=
  c ← for_in (range retries)
        (market_order_attempt symbol side quantity retries);
  match c with
  | Return_ r => mret r
  | Continue => mret None
  end.

(** One pass through the body of the [for attempt in range(retries)]
    loop of [place_limit_order]. *)
Definition limit_order_attempt (symbol side : string) (quantity price : Q)
    (retries attempt : Z) : Py (ctl (option OrderResponse)) :=
  try_except
    (sync_time;;
     logger INFO "Placing limit order" None;;
     order ← client_futures_create_order
               {| req_symbol := symbol;
                  req_side := side;
                  req_type := "LIMIT";
                  req_timeInForce := Some "GTC";
                  req_quantity := quantity;
                  req_price := Some price;
                  req_stopPrice := None;
                  req_timestamp := None |};
     logger INFO "Limit order placed: " None;;
     mret (Return_ (Some order)))
    (fun e =>
       match e with
       | BinanceAPIException code _ =>
           Some (if (code =? -1021)%Z && (attempt <? retries - 1)%Z
                 then time_sleep 1;; mret Continue
                 else logger ERROR "Limit order failed: " (Some e);;
                      mret (Return_ None))
       | _ => None
       end).

(** [place_limit_order(self, symbol, side, quantity, price, retries=3)] *)
Definition place_limit_order (symbol side : string) (quantity price : Q)
    (retries : Z) : Py (option OrderResponse) :=
  c ← for_in (range retries)
        (limit_order_attempt symbol side quantity price retries);
  match c with
  | Return_ r => mret r
  | Continue => mret None
  end.

(** One pass through the body of the [for attempt in range(retries)]
    loop of [place_stop_limit_order]. *)
Definition stop_limit_order_attempt (symbol side : string)
    (quantity price stop_price : Q)
    (retries attempt : Z) : Py (ctl (option OrderResponse)) :=
  try_except
    (sync_time;;
     logger INFO "Placing stop-limit order" None;;
     order ← client_futures_create_order
               {| req_symbol := symbol;
                  req_side := side;
                  req_type := "STOP";
                  req_timeInForce := Some "GTC";
                  req_quantity := quantity;
                  req_price := Some price;
                  req_stopPrice := Some stop_price;
                  req_timestamp := None |};
     logger INFO "Stop-limit order placed: " None;;
     mret (Return_ (Some order)))
    (fun e =>
       match e with
       | BinanceAPIException code _ =>
           Some (if (code =? -1021)%Z && (attempt <? retries - 1)%Z
                 then time_sleep 1;; mret Continue
                 else logger ERROR "Stop-limit order failed: " (Some e);;
                      mret (Return_ None))
       | _ => None
       end).

(** [place_stop_limit_order(self, symbol, side, quantity, price, stop_price,
    retries=3)] *)
Definition place_stop_limit_order (symbol side : string)
    (quantity price stop_price : Q) (retries : Z)
    : Py (option OrderResponse) :=
  c ← for_in (range retries)
        (stop_limit_order_attempt symbol side quantity price stop_price
           retries);
  match c with
  | Return_ r => mret r
  | Continue => mret None
  end.

(** [get_position(self, symbol)] *)
Definition get_position (symbol : string) : Py (option Position) :=
  try_except
    (positions ← client_futures_position_information;
     c ← for_in positions (fun p =>
           if String.eqb (p_symbol p) symbol
              && negb (Qeq_bool (positionAmt p) 0)
           then mret (Return_ (Some p))
           else mret Continue);
     match c with
     | Return_ r => mret r
     | Continue => mret None
     end)
    (fun e =>
       Some (logger ERROR "Error getting position: " (Some e);;
             mret None)).

(** [close_position(self, symbol, side=None, quantity=None,
    order_type='MARKET', price=None, retries=3)] *)
Definition close_position (symbol : string) (side : option string)
    (quantity : option Q) (order_type : string) (price : option Q)
    (retries : Z) : Py (option OrderResponse) :=
  try_except
    ('(side, quantity) ←
        match side, quantity with
        | Some side, Some quantity => mret (side, quantity)
        | _, _ =>
            position ← get_position symbol;
            match position with
            | None => raise (ValueError "No open position found")
            | Some position =>
                mret (match side with
                      | None => if Qltb 0 (positionAmt position)
                                then "SELL" else "BUY"
                      | Some side => side
                      end,
                      match quantity with
                      | None => Qabs (positionAmt position)
                      | Some quantity => quantity
                      end)
            end
        end;
     if String.eqb order_type "MARKET" then
       place_market_order symbol side quantity retries
     else if String.eqb order_type "LIMIT" then
       match price with
       | None => raise (ValueError "Price required for limit orders")
       | Some price => place_limit_order symbol side quantity price retries
       end
     else raise (ValueError "Invalid order type"))
    (fun e =>
       Some (logger ERROR "Failed to close position: " (Some e);;
             mret None)).

(** ** The three order submissions, uniformly *)

(** An order to submit, with the arguments of the method that submits it. *)
Inductive Order : Type :=
| Market (symbol side : string) (quantity : Q)
| Limit (symbol side : string) (quantity price : Q)
| StopLimit (symbol side : string) (quantity price stop_price : Q).

Definition place (o : Order) (retries : Z) : Py (option OrderResponse) :=
  match o with
  | Market symbol side quantity =>
      place_market_order symbol side quantity retries
  | Limit symbol side quantity price =>
      place_limit_order symbol side quantity price retries
  | StopLimit symbol side quantity price stop_price =>
      place_stop_limit_order symbol side quantity price stop_price retries
  end.

Definition attempt_body (o : Order) (retries attempt : Z)
    : Py (ctl (option OrderResponse)) :=
  match o with
  | Market symbol side quantity =>
      market_order_attempt symbol side quantity retries attempt
  | Limit symbol side quantity price =>
      limit_order_attempt symbol side quantity price retries attempt
  | StopLimit symbol side quantity price stop_price =>
      stop_limit_order_attempt symbol side quantity price stop_price
        retries attempt
  end.

Definition order_symbol (o : Order) : string :=
  match o with
  | Market s _ _ | Limit s _ _ _ | StopLimit s _ _ _ _ => s
  end.
Definition order_side (o : Order) : string :=
  match o with
  | Market _ sd _ | Limit _ sd _ _ | StopLimit _ sd _ _ _ => sd
  end.
Definition order_quantity (o : Order) : Q :=
  match o with
  | Market _ _ q | Limit _ _ q _ | StopLimit _ _ q _ _ => q
  end.

(** The message logged when the submission of [o] fails for good. *)
Definition failed_msg (o : Order) : string :=
  match o with
  | Market _ _ _ => "Market order failed: "
  | Limit _ _ _ _ => "Limit order failed: "
  | StopLimit _ _ _ _ _ => "Stop-limit order failed: "
  end.

(** ** Shapes of traces *)

(** The events of one run of [sync_time] and the offset it leaves in
    [self.time_offset]: the server time and a clock reading, or a failed
    call and no correction. *)
Inductive sync_events : list Event -> Z -> Prop :=
| sync_events_ok (server_time : Z) (now : Q) :
    sync_events [EvGetServerTime (Returns server_time); EvTime now]
                (server_time - py_int (float_mul now 1000))
| sync_events_failed (e : exn) :
    sync_events [EvGetServerTime (Raises e)] 0.

(** The events between the synchronisation and the order creation of one
    attempt, and the request built: a market order reads the clock and
    carries the corrected local time; limit and stop-limit orders read
    nothing and carry no timestamp. *)
Inductive stamp_events : Order -> Z -> list Event -> OrderRequest -> Prop :=
| stamp_market symbol side quantity offset (now : Q) :
    stamp_events (Market symbol side quantity) offset [EvTime now]
      {| req_symbol := symbol; req_side := side; req_type := "MARKET";
         req_timeInForce := None; req_quantity := quantity;
         req_price := None; req_stopPrice := None;
         req_timestamp :=
           Some (py_int (float_add (float_mul now 1000)
                           (float_of_int offset))) |}
| stamp_limit symbol side quantity price offset :
    stamp_events (Limit symbol side quantity price) offset []
      {| req_symbol := symbol; req_side := side; req_type := "LIMIT";
         req_timeInForce := Some "GTC"; req_quantity := quantity;
         req_price := Some price; req_stopPrice := None;
         req_timestamp := None |}
| stamp_stop_limit symbol side quantity price stop_price offset :
    stamp_events (StopLimit symbol side quantity price stop_price) offset []
      {| req_symbol := symbol; req_side := side; req_type := "STOP";
         req_timeInForce := Some "GTC"; req_quantity := quantity;
         req_price := Some price; req_stopPrice := Some stop_price;
         req_timestamp := None |}.

(** A trace made of submission attempts of [o]: each attempt synchronises
    the clock, builds its request, creates the order, and possibly sleeps
    one second before the next. *)
Inductive attempts_trace (o : Order) : list Event -> Prop :=
| attempts_nil : attempts_trace o []
| attempts_cons sync_evs offset stamp_evs req reply tail rest :
    sync_events sync_evs offset ->
    stamp_events o offset stamp_evs req ->
    tail = [] \/ tail = [EvSleep 1] ->
    attempts_trace o rest ->
    attempts_trace o
      (sync_evs ++ stamp_evs ++ [EvCreateOrder req reply] ++ tail ++ rest).

(** Whether the handler of an attempt retries after [reply]. *)
Definition retries_after (retries attempt : Z)
    (reply : outcome OrderResponse) : bool :=
  match reply with
  | Raises (BinanceAPIException code _) =>
      (code =? -1021)%Z && (attempt <? retries - 1)%Z
  | _ => false
  end.

(** How an attempt ends, given the reply to its order creation. *)
Definition attempt_result (retries attempt : Z)
    (reply : outcome OrderResponse) : outcome (ctl (option OrderResponse)) :=
  match reply with
  | Returns order => Returns (Return_ (Some order))
  | Raises (BinanceAPIException code m) =>
      if retries_after retries attempt reply
      then Returns Continue else Returns (Return_ None)
  | Raises e => Raises e
  end.

Definition attempt_tail (retries attempt : Z)
    (reply : outcome OrderResponse) : list Event :=
  if retries_after retries attempt reply then [EvSleep 1] else [].

(** The message logged when the order of [o] has been created. *)
Definition done_msg (o : Order) : string :=
  match o with
  | Market _ _ _ => "Market order executed: "
  | Limit _ _ _ _ => "Limit order placed: "
  | StopLimit _ _ _ _ _ => "Stop-limit order placed: "
  end.

(** The log records an attempt ends with: nothing on a retry or on an
    exception it does not catch. *)
Definition attempt_log (o : Order) (retries attempt : Z)
    (reply : outcome OrderResponse) : list LogRecord :=
  match reply with
  | Returns _ => [{| levelname := INFO; msg := done_msg o; exc := None |}]
  | Raises (BinanceAPIException code m as e) =>
      if retries_after retries attempt reply then []
      else [{| levelname := ERROR; msg := failed_msg o; exc := Some e |}]
  | Raises _ => []
  end.

(** An order creation that the exchange accepted. *)
Definition is_created (e : Event) : bool :=
  match e with EvCreateOrder _ (Returns _) => true | _ => false end.

(** [time.sleep(1)] *)
Definition is_one_second_sleep (e : Event) : bool :=
  match e with EvSleep s => (s =? 1)%Z | _ => false end.

(** The error record at the end of the log, if the log ends with one. *)
Definition last_error (l : list LogRecord) : option (string * exn) :=
  match rev l with
  | {| levelname := ERROR; msg := m; exc := Some e |} :: _ => Some (m, e)
  | _ => None
  end.

(** ** Sample worlds *)

Definition sample_order : OrderResponse :=
  {| orderId := 7; o_symbol := "BTCUSDT"; o_side := "BUY";
     o_type := "MARKET"; origQty := 1; executedQty := 0;
     o_status := "NEW" |}.

(** A client whose order creation follows [creates], whose server clock
    answers, and whose other endpoints answer [info] and [positions]. *)
Definition scripted_client (creates : nat -> outcome OrderResponse)
    (info : outcome (list SymbolInfo)) (positions : outcome (list Position))
    : Client :=
  {| get_server_time := fun n => Returns (1700000000250 + Z.of_nat n);
     futures_exchange_info := fun _ => info;
     futures_position_information := fun _ => positions;
     futures_create_order := fun n _ => creates n |}.

(** The bot before its first call, with a local clock one second apart per
    reading. *)
Definition fresh_world (c : Client) : World :=
  {| client := c;
     wall_clock := fun n => (1700000000 + inject_Z (Z.of_nat n))%Q;
     time_offset := 0; trace := []; log := [] |}.

(** Two rejections for an invalid timestamp, then an accepted order. *)
Definition world_two_rejections : World :=
  fresh_world
    (scripted_client
       (fun n => if (n <? 2)%nat
                 then Raises (BinanceAPIException (-1021)
                                "Timestamp for this request is outside of the recvWindow.")
                 else Returns sample_order)
       (Returns []) (Returns [])).

(** Every order creation is rejected for an insufficient margin. *)
Definition world_insufficient_margin : World :=
  fresh_world
    (scripted_client
       (fun _ => Raises (BinanceAPIException (-2019) "Margin is insufficient."))
       (Returns []) (Returns [])).

(** Every order creation is rejected for an invalid timestamp. *)
Definition world_clock_skewed : World :=
  fresh_world
    (scripted_client
       (fun _ => Raises (BinanceAPIException (-1021)
                           "Timestamp for this request is outside of the recvWindow."))
       (Returns []) (Returns [])).

(** ** Notions used to state the behaviour of the validator *)

(** The entry of the metadata that [validate_quantity] stops at: the first
    one for [symbol]. *)
Definition symbol_entry (symbol : string) (info : list SymbolInfo)
    : option SymbolInfo :=
  find (fun s => String.eqb (s_symbol s) symbol) info.


(** Whether [e] is an instance of [BinanceAPIException]. *)
Definition is_api_exception (e : exn) : bool :=
  match e with BinanceAPIException _ _ => true | _ => false end.

(** Metadata with a halted pair that lists no filter, a pair traded in
    steps of a thousandth and a pair whose lot size declares no step. *)
Definition sample_info : list SymbolInfo :=
  [ {| s_symbol := "ETHUSDT"; s_status := "BREAK"; s_filters := [] |};
    {| s_symbol := "BTCUSDT"; s_status := "TRADING";
       s_filters :=
         [ {| filterType := "PRICE_FILTER"; minQty := 0; maxQty := 0;
              stepSize := 0 |};
           {| filterType := "LOT_SIZE"; minQty := 1 # 1000;
              maxQty := 1000; stepSize := 1 # 1000 |} ] |};
    {| s_symbol := "XRPUSDT"; s_status := "TRADING";
       s_filters :=
         [ {| filterType := "LOT_SIZE"; minQty := 0; maxQty := 10;
              stepSize := 0 |} ] |} ].

Definition world_with_metadata : World :=
  fresh_world
    (scripted_client (fun _ => Returns sample_order) (Returns sample_info)
       (Returns [])).

(** The exchange reports an error on the metadata endpoint. *)
Definition world_metadata_rejected : World :=
  fresh_world
    (scripted_client (fun _ => Returns sample_order)
       (Raises (BinanceAPIException (-1003) "Too many requests."))
       (Returns [])).

(** The network is down when the metadata is asked for. *)
Definition world_metadata_unreachable : World :=
  fresh_world
    (scripted_client (fun _ => Returns sample_order)
       (Raises (ConnectionError "Connection refused"))
       (Returns [])).

(** What [validate_quantity] makes of the metadata once it has arrived:
    the verdict on [quantity], or the exception that escapes. *)
Definition quantity_verdict (symbol : string) (quantity : Q)
    (info : list SymbolInfo) : outcome bool :=
  match symbol_entry symbol info with
  | None => Returns false
  | Some s =>
      match filters_by_type (s_filters s) !! "LOT_SIZE" with
      | None => Raises (KeyError "LOT_SIZE")
      | Some lot =>
          if Qltb quantity (minQty lot) || Qltb (maxQty lot) quantity
          then Returns false
          else if Qeq_bool (stepSize lot) 0
          then Raises (ZeroDivisionError "float division by zero")
          else Returns (negb (float_ne
                               (float_mod
                                  (to_binary64 (quantity / stepSize lot)) 1)
                               0))
      end
  end.

(** The filter of type [k] that a later one does not replace: the last of
    that type in the list. *)
Definition last_filter_of_type (k : string) (fs : list Filter)
    : option Filter :=
  find (fun f => String.eqb (filterType f) k) (rev fs).

(** ** Notions used to state the behaviour of the position closer *)

(** The entry that [get_position] returns: the first one for [symbol] whose
    amount is not zero. *)
Definition open_position (symbol : string) (positions : list Position)
    : option Position :=
  find (fun p => String.eqb (p_symbol p) symbol
                 && negb (Qeq_bool (positionAmt p) 0)) positions.

(** The world after [logger.error(head + str(e))]. *)
Definition log_error (head : string) (e : exn) (w : World) : World :=
  {| client := client w; wall_clock := wall_clock w;
     time_offset := time_offset w; trace := trace w;
     log := log w ++ [{| levelname := ERROR; msg := head; exc := Some e |}] |}.

(** The second half of [close_position], from the test of the order type
    on, once [side] and [quantity] are known; under the handler of
    [close_position]. *)
Definition close_resolved (symbol side : string) (quantity : Q)
    (order_type : string) (price : option Q) (retries : Z)
    : Py (option OrderResponse) :=
  try_except
    (if String.eqb order_type "MARKET" then
       place_market_order symbol side quantity retries
     else if String.eqb order_type "LIMIT" then
       match price with
       | None => raise (ValueError "Price required for limit orders")
       | Some price => place_limit_order symbol side quantity price retries
       end
     else raise (ValueError "Invalid order type"))
    (fun e =>
       Some (logger ERROR "Failed to close position: " (Some e);;
             mret None)).

(** The side [close_position] infers from a position. *)
Definition closing_side (p : Position) : string :=
  if Qltb 0 (positionAmt p) then "SELL" else "BUY".

(** A short position of two and a half XYZ, after a flat entry for the same
    symbol and a long position in another one. *)
Definition sample_positions : list Position :=
  [ {| p_symbol := "XYZ"; positionAmt := 0; entryPrice := 0; markPrice := 10;
       unRealizedProfit := 0 |};
    {| p_symbol := "BTCUSDT"; positionAmt := 1 # 2; entryPrice := 50000;
       markPrice := 51000; unRealizedProfit := 500 |};
    {| p_symbol := "XYZ"; positionAmt := -5 # 2; entryPrice := 12;
       markPrice := 10; unRealizedProfit := 5 |} ].

Definition world_with_positions : World :=
  fresh_world
    (scripted_client (fun _ => Returns sample_order) (Returns sample_info)
       (Returns sample_positions)).

(** The position endpoint cannot be reached. *)
Definition world_positions_unreachable : World :=
  fresh_world
    (scripted_client (fun _ => Returns sample_order) (Returns sample_info)
       (Raises (ConnectionError "Connection refused"))).

(** The network fails when the order is sent. *)
Definition world_order_unreachable : World :=
  fresh_world
    (scripted_client (fun _ => Raises (ConnectionError "Connection reset"))
       (Returns sample_info) (Returns sample_positions)).

(** The request a submission of [o] sends, up to its timestamp. *)
Definition request_of (o : Order) (timestamp : option Z) : OrderRequest :=
  match o with
  | Market symbol side quantity =>
      {| req_symbol := symbol; req_side := side; req_type := "MARKET";
         req_timeInForce := None; req_quantity := quantity;
         req_price := None; req_stopPrice := None;
         req_timestamp := timestamp |}
  | Limit symbol side quantity price =>
      {| req_symbol := symbol; req_side := side; req_type := "LIMIT";
         req_timeInForce := Some "GTC"; req_quantity := quantity;
         req_price := Some price; req_stopPrice := None;
         req_timestamp := timestamp |}
  | StopLimit symbol side quantity price stop_price =>
      {| req_symbol := symbol; req_side := side; req_type := "STOP";
         req_timeInForce := Some "GTC"; req_quantity := quantity;
         req_price := Some price; req_stopPrice := Some stop_price;
         req_timestamp := timestamp |}
  end.

Definition is_market (o : Order) : bool :=
  match o with Market _ _ _ => true | _ => false end.

(** A bot that was synchronised 250 ms behind the server and now finds the
    time endpoint unreachable. *)
Definition world_time_unreachable : World :=
  {| client :=
       {| get_server_time := fun _ => Raises (ConnectionError "timed out");
          futures_exchange_info := fun _ => Returns sample_info;
          futures_position_information := fun _ => Returns sample_positions;
          futures_create_order := fun _ _ => Returns sample_order |};
     wall_clock := fun n => (1700000000 + inject_Z (Z.of_nat n))%Q;
     time_offset := 250; trace := []; log := [] |}.

(** ** Floats as the program meets them *)

(** The quotient [q / step], as binary64 holds it, is a whole number. *)
Definition whole_quotient (q step : Q) : Prop :=
  exists (r : Q) (k : Z),
    to_binary64 (q / step) = Num r /\ (r == inject_Z k)%Q.

(** The metadata of a pair traded in steps of a thousandth, from a thousandth
    up to a thousand, as [float] reads the strings "0.001" and "1000". *)
Definition float_info : list SymbolInfo :=
  [ {| s_symbol := "BTCUSDT"; s_status := "TRADING";
       s_filters :=
         [ {| filterType := "LOT_SIZE"; minQty := round64 (1 # 1000);
              maxQty := 1000; stepSize := round64 (1 # 1000) |} ] |} ].

Definition world_float_metadata : World :=
  fresh_world
    (scripted_client (fun _ => Returns sample_order) (Returns float_info)
       (Returns [])).

(** A local clock that reads 1704403955.6529999, the float nearest to it,
    against a server 47 ms ahead. *)
Definition world_clock_fraction : World :=
  {| client :=
       {| get_server_time := fun _ => Returns 1704403955700;
          futures_exchange_info := fun _ => Returns sample_info;
          futures_position_information := fun _ => Returns sample_positions;
          futures_create_order := fun _ _ => Returns sample_order |};
     wall_clock := fun _ => round64 (17044039556529999 # 10000000);
     time_offset := 0; trace := []; log := [] |}.

(** ** Further sample worlds *)



(** The only entry of XYZ is flat. *)
Definition flat_positions : list Position :=
  [ {| p_symbol := "BTCUSDT"; positionAmt := 1 # 2; entryPrice := 50000;
       markPrice := 51000; unRealizedProfit := 500 |};
    {| p_symbol := "XYZ"; positionAmt := 0; entryPrice := 0; markPrice := 10;
       unRealizedProfit := 0 |} ].

Definition world_flat_position : World :=
  fresh_world
    (scripted_client (fun _ => Returns sample_order) (Returns sample_info)
       (Returns flat_positions)).

(** * Properties *)

(** ** Counting events *)

Lemma count_app (p : Event -> bool) (l1 l2 : list Event) :
  count p (l1 ++ l2) = (count p l1 + count p l2)%nat.
Proof.
  induction l1 as [|e l1 IH]; simpl; [reflexivity|].
  rewrite IH. lia.
Qed.

(** ** One run of [sync_time] *)

(** [sync_time] never raises: it leaves the client and the clock as they
    were, appends the events of one synchronisation and sets the offset. *)
Lemma sync_time_spec (w : World) :
  exists evs offset lg,
    sync_events evs offset /\
    count is_time evs = (length evs - 1)%nat /\
    sync_time w =
      (Returns tt,
       {| client := client w; wall_clock := wall_clock w;
          time_offset := offset; trace := trace w ++ evs;
          log := log w ++ lg |}).
Proof.
  unfold sync_time, try_except, mbind, Py_bind, client_get_server_time.
  simpl.
  destruct (get_server_time (client w) (count is_get_server_time (trace w)))
    as [st|e].
  - exists [EvGetServerTime (Returns st);
            EvTime (wall_clock w (count is_time (trace w ++ [EvGetServerTime (Returns st)])))].
    eexists. eexists. split; [constructor|]. split; [reflexivity|].
    cbn. rewrite <- app_assoc. reflexivity.
  - exists [EvGetServerTime (Raises e)]. exists 0. eexists.
    split; [constructor|]. split; [reflexivity|]. cbn. reflexivity.
Qed.

(** ** One submission attempt *)

Ltac case_create_reply :=
  match goal with
  | |- context [futures_create_order ?c ?n ?r] =>
      destruct (futures_create_order c n r) as [ord|[code m|m|m|m|k|m]]
  end.

Ltac finish_attempt retries attempt now0 now1 synced degraded placing :=
  split; [once constructor|]; split; [once constructor|]; cbv zeta;
  subst now0 now1 synced degraded placing;
  repeat rewrite count_app; cbn; repeat rewrite Nat.add_0_r;
  case_create_reply; cbn;
  unfold attempt_tail, attempt_result, attempt_log, retries_after;
  try (destruct ((_ =? -1021)%Z && (attempt <? retries - 1)%Z); cbn);
  unfold record_event; cbn; repeat rewrite <- app_assoc; reflexivity.

(** One attempt, whatever the client answers: it synchronises the clock,
    builds the request, creates the order with the next reply of the script,
    and ends as the reply decides. *)
Lemma attempt_body_spec (o : Order) (retries attempt : Z) (w : World) :
  exists sync_evs offset stamp_evs req lg,
    sync_events sync_evs offset /\
    stamp_events o offset stamp_evs req /\
    let reply := futures_create_order (client w)
                   (count is_create_order (trace w)) req in
    attempt_body o retries attempt w =
      (attempt_result retries attempt reply,
       {| client := client w; wall_clock := wall_clock w;
          time_offset := offset;
          trace := trace w ++ sync_evs ++ stamp_evs
                     ++ [EvCreateOrder req reply]
                     ++ attempt_tail retries attempt reply;
          log := log w ++ lg ++ attempt_log o retries attempt reply |}).
Proof.
  pose (now0 := wall_clock w (count is_time (trace w))).
  pose (now1 := wall_clock w (count is_time (trace w) + 1)).
  pose (synced := {| levelname := INFO; msg := "Time synchronized. Offset: ";
                     exc := None |}).
  pose (degraded := fun e => {| levelname := WARNING;
                                msg := "Time sync failed: ";
                                exc := Some e |}).
  pose (placing := fun m => {| levelname := INFO; msg := m; exc := None |}).
  destruct o as [s sd q|s sd q p|s sd q p sp];
    unfold attempt_body, market_order_attempt, limit_order_attempt,
      stop_limit_order_attempt, sync_time, try_except, mbind, Py_bind,
      client_get_server_time; simpl;
    destruct (get_server_time (client w)
                (count is_get_server_time (trace w))) as [st|e]; cbn.
  - exists [EvGetServerTime (Returns st); EvTime now0],
      (st - py_int (float_mul now0 1000)), [EvTime now1].
    eexists. exists [synced; placing "Placing market order"].
    finish_attempt retries attempt now0 now1 synced degraded placing.
  - exists [EvGetServerTime (Raises e)], 0, [EvTime now0].
    eexists. exists [degraded e; placing "Placing market order"].
    finish_attempt retries attempt now0 now1 synced degraded placing.
  - exists [EvGetServerTime (Returns st); EvTime now0],
      (st - py_int (float_mul now0 1000)), [].
    eexists. exists [synced; placing "Placing limit order"].
    finish_attempt retries attempt now0 now1 synced degraded placing.
  - exists [EvGetServerTime (Raises e)], 0, [].
    eexists. exists [degraded e; placing "Placing limit order"].
    finish_attempt retries attempt now0 now1 synced degraded placing.
  - exists [EvGetServerTime (Returns st); EvTime now0],
      (st - py_int (float_mul now0 1000)), [].
    eexists. exists [synced; placing "Placing stop-limit order"].
    finish_attempt retries attempt now0 now1 synced degraded placing.
  - exists [EvGetServerTime (Raises e)], 0, [].
    eexists. exists [degraded e; placing "Placing stop-limit order"].
    finish_attempt retries attempt now0 now1 synced degraded placing.
Qed.

(** ** Counting inside the events of one attempt *)

Lemma sync_events_counts (evs : list Event) (offset : Z) :
  sync_events evs offset ->
  count is_create_order evs = 0%nat /\ count is_sleep evs = 0%nat /\
  count is_get_server_time evs = 1%nat /\
  count is_exchange_info evs = 0%nat /\
  count is_position_information evs = 0%nat.
Proof. destruct 1; cbn; repeat split; reflexivity. Qed.

Lemma stamp_events_counts (o : Order) (offset : Z) (evs : list Event)
    (req : OrderRequest) :
  stamp_events o offset evs req ->
  count is_create_order evs = 0%nat /\ count is_sleep evs = 0%nat /\
  count is_gateway_call evs = 0%nat.
Proof. destruct 1; cbn; repeat split; reflexivity. Qed.

Lemma stamp_events_request (o : Order) (offset : Z) (evs : list Event)
    (req : OrderRequest) :
  stamp_events o offset evs req ->
  req_symbol req = order_symbol o /\ req_side req = order_side o /\
  req_quantity req = order_quantity o.
Proof. destruct 1; cbn; repeat split; reflexivity. Qed.

Lemma attempt_tail_cases (retries attempt : Z)
    (reply : outcome OrderResponse) :
  attempt_tail retries attempt reply = [] \/
  attempt_tail retries attempt reply = [EvSleep 1].
Proof.
  unfold attempt_tail. destruct (retries_after retries attempt reply); auto.
Qed.

(** The order creations of a trace of attempts are as many as its
    synchronisations. *)
Lemma attempts_trace_counts (o : Order) (evs : list Event) :
  attempts_trace o evs ->
  count is_get_server_time evs = count is_create_order evs /\
  (count is_sleep evs <= count is_create_order evs)%nat.
Proof.
  induction 1 as [|se ofs st req reply tail rest Hs Hst Htail _ [IH1 IH2]].
  - split; reflexivity.
  - destruct (sync_events_counts _ _ Hs) as (c1 & c2 & c3 & _).
    destruct (stamp_events_counts _ _ _ _ Hst) as (d1 & d2 & d3).
    assert (count is_get_server_time st = 0%nat) as d4
      by (destruct Hst; reflexivity).
    repeat rewrite count_app. cbn.
    destruct Htail as [-> | ->]; cbn; lia.
Qed.

(** ** The loop over the attempts *)

(** One step of the loop: the first attempt runs, and the loop goes on from
    the world it leaves exactly when the attempt ends with [continue]. *)
Lemma for_in_cons (o : Order) (retries a : Z) (l : list Z) (w : World) :
  exists sync_evs offset stamp_evs req lg,
    sync_events sync_evs offset /\
    stamp_events o offset stamp_evs req /\
    let reply := futures_create_order (client w)
                   (count is_create_order (trace w)) req in
    let w1 :=
      {| client := client w; wall_clock := wall_clock w;
         time_offset := offset;
         trace := trace w ++ sync_evs ++ stamp_evs
                    ++ [EvCreateOrder req reply]
                    ++ attempt_tail retries a reply;
         log := log w ++ lg ++ attempt_log o retries a reply |} in
    for_in (a :: l) (attempt_body o retries) w =
      match attempt_result retries a reply with
      | Returns Continue => for_in l (attempt_body o retries) w1
      | Returns (Return_ r) => (Returns (Return_ r), w1)
      | Raises e => (Raises e, w1)
      end.
Proof.
  destruct (attempt_body_spec o retries a w)
    as (se & ofs & st & req & lg & Hs & Hst & Heq).
  exists se, ofs, st, req, lg. split; [exact Hs|]. split; [exact Hst|].
  cbv zeta in *. cbn [for_in]. unfold mbind, Py_bind. rewrite Heq.
  destruct (attempt_result retries a _) as [[|r]|e]; reflexivity.
Qed.

Lemma last_error_snoc (l : list LogRecord) (m : string) (e : exn) :
  last_error (l ++ [{| levelname := ERROR; msg := m; exc := Some e |}])
  = Some (m, e).
Proof. unfold last_error. rewrite rev_app_distr. reflexivity. Qed.

(** The events of one attempt hold exactly one order creation. *)
Lemma attempt_block_counts (o : Order) (se st tail : list Event) (ofs : Z)
    (req : OrderRequest) (reply : outcome OrderResponse) :
  sync_events se ofs ->
  stamp_events o ofs st req ->
  tail = [] \/ tail = [EvSleep 1] ->
  count is_create_order (se ++ st ++ [EvCreateOrder req reply] ++ tail)
  = 1%nat.
Proof.
  intros Hs Hst Htail. repeat rewrite count_app.
  destruct (sync_events_counts _ _ Hs) as (-> & _).
  destruct (stamp_events_counts _ _ _ _ Hst) as (-> & _).
  destruct Htail as [-> | ->]; reflexivity.
Qed.

Lemma attempts_trace_block (o : Order) (se st tail rest : list Event)
    (ofs : Z) (req : OrderRequest) (reply : outcome OrderResponse) :
  sync_events se ofs ->
  stamp_events o ofs st req ->
  tail = [] \/ tail = [EvSleep 1] ->
  attempts_trace o rest ->
  attempts_trace o
    ((se ++ st ++ [EvCreateOrder req reply] ++ tail) ++ rest).
Proof.
  intros Hs Hst Htail Hrest.
  replace ((se ++ st ++ [EvCreateOrder req reply] ++ tail) ++ rest)
    with (se ++ st ++ [EvCreateOrder req reply] ++ tail ++ rest).
  - econstructor; eassumption.
  - repeat rewrite <- app_assoc. reflexivity.
Qed.

(** Whatever the client answers, the loop leaves the client and the clock
    alone and appends a trace of attempts with at most one order creation
    per element of the list it runs over, and at least one if the list is
    not empty. *)
Lemma for_in_attempts (o : Order) (retries : Z) (l : list Z) (w : World) :
  exists evs : list Event,
    trace (snd (for_in l (attempt_body o retries) w)) = trace w ++ evs /\
    client (snd (for_in l (attempt_body o retries) w)) = client w /\
    wall_clock (snd (for_in l (attempt_body o retries) w)) = wall_clock w /\
    attempts_trace o evs /\
    (count is_create_order evs <= length l)%nat /\
    (l <> [] -> (1 <= count is_create_order evs)%nat).
Proof.
  revert w. induction l as [|a l IH]; intros w.
  - exists []. cbn. rewrite app_nil_r.
    repeat split; [constructor|lia|congruence].
  - destruct (for_in_cons o retries a l w)
      as (se & ofs & st & req & lg & Hs & Hst & Heq).
    cbv zeta in Heq. rewrite Heq. clear Heq.
    set (reply := futures_create_order (client w)
                    (count is_create_order (trace w)) req).
    set (tail := attempt_tail retries a reply).
    assert (Htail : tail = [] \/ tail = [EvSleep 1])
      by apply attempt_tail_cases.
    pose proof (attempt_block_counts o se st tail ofs req reply Hs Hst Htail)
      as Hcnt.
    set (block := se ++ st ++ [EvCreateOrder req reply] ++ tail) in *.
    set (w1 := Build_World _ _ _ _ _).
    assert (Hw1 : trace w1 = trace w ++ block) by reflexivity.
    assert (Hc1 : client w1 = client w) by reflexivity.
    assert (Hk1 : wall_clock w1 = wall_clock w) by reflexivity.
    clearbody w1.
    destruct (attempt_result retries a reply) as [[|r]|e].
    + destruct (IH w1) as (evs & Ht & Hc & Hk & Ha & Hn & _).
      exists (block ++ evs).
      rewrite Ht, Hc, Hk, Hw1, Hc1, Hk1, count_app, Hcnt. cbn [length].
      repeat split.
      * symmetry. apply app_assoc.
      * apply (attempts_trace_block o se st tail evs ofs req reply);
          assumption.
      * lia.
      * lia.
    + exists (block ++ []). cbn [snd]. rewrite Hw1, count_app, Hcnt.
      rewrite app_nil_r. repeat split; try assumption.
      * rewrite <- (app_nil_r block).
        apply (attempts_trace_block o se st tail [] ofs req reply);
          try assumption. constructor.
      * cbn. lia.
      * cbn. lia.
    + exists (block ++ []). cbn [snd]. rewrite Hw1, count_app, Hcnt.
      rewrite app_nil_r. repeat split; try assumption.
      * rewrite <- (app_nil_r block).
        apply (attempts_trace_block o se st tail [] ofs req reply);
          try assumption. constructor.
      * cbn. lia.
      * cbn. lia.
Qed.

(** [place] is the loop over [range(retries)], followed by the implicit
    [return None] of a function that runs off its end. *)
Lemma place_unfold (o : Order) (retries : Z) (w : World) :
  place o retries w =
    match for_in (range retries) (attempt_body o retries) w with
    | (Returns (Return_ r), w') => (Returns r, w')
    | (Returns Continue, w') => (Returns None, w')
    | (Raises e, w') => (Raises e, w')
    end.
Proof.
  destruct o as [s sd q|s sd q p|s sd q p sp]; cbn [place];
    unfold place_market_order, place_limit_order, place_stop_limit_order,
      mbind, Py_bind.
  - change (market_order_attempt s sd q retries)
      with (attempt_body (Market s sd q) retries).
    destruct (for_in _ _ w) as [[[|r]|e] w']; reflexivity.
  - change (limit_order_attempt s sd q p retries)
      with (attempt_body (Limit s sd q p) retries).
    destruct (for_in _ _ w) as [[[|r]|e] w']; reflexivity.
  - change (stop_limit_order_attempt s sd q p sp retries)
      with (attempt_body (StopLimit s sd q p sp) retries).
    destruct (for_in _ _ w) as [[[|r]|e] w']; reflexivity.
Qed.

Lemma place_world (o : Order) (retries : Z) (w : World) :
  snd (place o retries w)
  = snd (for_in (range retries) (attempt_body o retries) w).
Proof.
  rewrite place_unfold.
  destruct (for_in (range retries) (attempt_body o retries) w)
    as [[[|r]|e] w']; reflexivity.
Qed.

Lemma length_range (n : Z) : length (range n) = Z.to_nat n.
Proof. unfold range. rewrite length_map, length_seq. reflexivity. Qed.

(** ** Scripted clients *)

Section Scripted.

Variable o : Order.
Variable retries : Z.

(** The loop over the attempts [a, a+1, ..., retries-1] when the next [k]
    order creations are rejected with the code -1021 and the one after
    them is accepted. *)
Lemma for_in_retry_success (k : nat) :
  forall (a len : nat) (w : World) (order : OrderResponse),
    (k < len)%nat ->
    Z.of_nat (a + len) = retries ->
    (forall i req, (i < k)%nat -> exists m,
        futures_create_order (client w)
          (count is_create_order (trace w) + i) req
        = Raises (BinanceAPIException (-1021) m)) ->
    (forall req,
        futures_create_order (client w)
          (count is_create_order (trace w) + k) req = Returns order) ->
    exists (evs : list Event) req w',
      for_in (map Z.of_nat (seq a len)) (attempt_body o retries) w
      = (Returns (Return_ (Some order)), w') /\
      trace w' = trace w ++ evs ++ [EvCreateOrder req (Returns order)] /\
      count is_create_order evs = k /\
      count is_created evs = 0%nat /\
      count is_sleep evs = k /\
      count is_one_second_sleep evs = k.
Proof.
  induction k as [|k IH]; intros a len w order Hlen Hret Hfail Hok.
  - destruct len as [|len]; [lia|]. cbn [seq map].
    destruct (for_in_cons o retries (Z.of_nat a)
                (map Z.of_nat (seq (S a) len)) w)
      as (se & ofs & st & req & lg & Hs & Hst & Heq).
    cbv zeta in Heq. rewrite Heq. clear Heq.
    rewrite Nat.add_0_r in Hok. rewrite Hok. cbn.
    exists (se ++ st), req. eexists. split; [reflexivity|]. cbn.
    destruct Hs, Hst; cbn; repeat split; reflexivity.
  - destruct len as [|len]; [lia|]. cbn [seq map].
    destruct (for_in_cons o retries (Z.of_nat a)
                (map Z.of_nat (seq (S a) len)) w)
      as (se & ofs & st & req & lg & Hs & Hst & Heq).
    cbv zeta in Heq. rewrite Heq. clear Heq.
    destruct (Hfail 0%nat req ltac:(lia)) as [m Hm].
    rewrite Nat.add_0_r in Hm. rewrite Hm.
    assert (Hretry : retries_after retries (Z.of_nat a)
              (Raises (BinanceAPIException (-1021) m)) = true).
    { cbn. apply Z.ltb_lt. lia. }
    unfold attempt_result, attempt_tail, attempt_log. rewrite Hretry.
    set (w1 := Build_World _ _ _ _ _).
    assert (Hc1 : count is_create_order (trace w1)
                  = S (count is_create_order (trace w))).
    { subst w1. cbn. repeat rewrite count_app.
      destruct (sync_events_counts _ _ Hs) as (-> & _).
      destruct (stamp_events_counts _ _ _ _ Hst) as (-> & _).
      cbn. lia. }
    destruct (IH (S a) len w1 order) as (evs & req' & w' & Hrun & Htr & Hcnt).
    + lia.
    + lia.
    + intros i r Hi. rewrite Hc1.
      destruct (Hfail (S i) r ltac:(lia)) as [m' Hm'].
      exists m'. rewrite <- Hm'. f_equal. lia.
    + intros r. rewrite Hc1. rewrite <- (Hok r). f_equal. lia.
    + exists (se ++ st
                ++ [EvCreateOrder req
                      (Raises (BinanceAPIException (-1021) m))]
                ++ [EvSleep 1] ++ evs), req', w'.
      split; [exact Hrun|]. split.
      * rewrite Htr. subst w1. cbn. repeat rewrite <- app_assoc.
        reflexivity.
      * destruct Hcnt as (h1 & h2 & h3 & h4).
        repeat rewrite count_app. rewrite h1, h2, h3, h4.
        destruct Hs, Hst; cbn; repeat split; lia.
Qed.

(** The loop over the attempts [a, ..., retries-1] when every order
    creation is rejected with the code -1021: every attempt but the last
    sleeps and retries, the last one gives up. *)
Lemma for_in_exhausted (len : nat) :
  forall (a : nat) (w : World),
    (1 <= len)%nat ->
    Z.of_nat (a + len) = retries ->
    (forall i req, (i < len)%nat -> exists m,
        futures_create_order (client w)
          (count is_create_order (trace w) + i) req
        = Raises (BinanceAPIException (-1021) m)) ->
    exists (evs : list Event) w' m,
      for_in (map Z.of_nat (seq a len)) (attempt_body o retries) w
      = (Returns (Return_ None), w') /\
      trace w' = trace w ++ evs /\
      count is_create_order evs = len /\
      count is_created evs = 0%nat /\
      count is_sleep evs = (len - 1)%nat /\
      last_error (log w')
      = Some (failed_msg o, BinanceAPIException (-1021) m).
Proof.
  induction len as [|len IH]; intros a w Hlen Hret Hfail; [lia|].
  cbn [seq map].
  destruct (for_in_cons o retries (Z.of_nat a)
              (map Z.of_nat (seq (S a) len)) w)
    as (se & ofs & st & req & lg & Hs & Hst & Heq).
  cbv zeta in Heq. rewrite Heq. clear Heq.
  destruct (Hfail 0%nat req ltac:(lia)) as [m Hm].
  rewrite Nat.add_0_r in Hm. rewrite Hm.
  unfold attempt_result, attempt_tail, attempt_log.
  destruct len as [|len].
  - assert (Hretry : retries_after retries (Z.of_nat a)
              (Raises (BinanceAPIException (-1021) m)) = false).
    { cbn. apply Z.ltb_ge. lia. }
    rewrite Hretry. eexists. eexists. exists m.
    split; [reflexivity|]. cbn. split; [reflexivity|].
    repeat rewrite count_app. rewrite app_assoc, last_error_snoc.
    destruct Hs, Hst; cbn; repeat split; reflexivity.
  - assert (Hretry : retries_after retries (Z.of_nat a)
              (Raises (BinanceAPIException (-1021) m)) = true).
    { cbn. apply Z.ltb_lt. lia. }
    rewrite Hretry.
    set (w1 := Build_World _ _ _ _ _).
    assert (Hc1 : count is_create_order (trace w1)
                  = S (count is_create_order (trace w))).
    { subst w1. cbn. repeat rewrite count_app.
      destruct (sync_events_counts _ _ Hs) as (-> & _).
      destruct (stamp_events_counts _ _ _ _ Hst) as (-> & _).
      cbn. lia. }
    destruct (IH (S a) w1) as (evs & w' & m' & Hrun & Htr & Hcnt).
    + lia.
    + lia.
    + intros i r Hi. rewrite Hc1.
      destruct (Hfail (S i) r ltac:(lia)) as [m' Hm'].
      exists m'. rewrite <- Hm'. f_equal. lia.
    + exists (se ++ st
                ++ [EvCreateOrder req
                      (Raises (BinanceAPIException (-1021) m))]
                ++ [EvSleep 1] ++ evs), w', m'.
      split; [exact Hrun|]. split.
      * rewrite Htr. subst w1. cbn. repeat rewrite <- app_assoc.
        reflexivity.
      * destruct Hcnt as (h1 & h2 & h3 & h4).
        repeat rewrite count_app. rewrite h1, h2, h3.
        destruct Hs, Hst; cbn; repeat split; try lia; exact h4.
Qed.

End Scripted.

(** ** The trace of a submission *)

(** What [place] appends to the trace, whatever the client answers. *)
Lemma place_trace (o : Order) (retries : Z) (w : World) :
  exists evs : list Event,
    trace (snd (place o retries w)) = trace w ++ evs /\
    client (snd (place o retries w)) = client w /\
    attempts_trace o evs /\
    (count is_create_order evs <= Z.to_nat retries)%nat /\
    (1 <= retries -> (1 <= count is_create_order evs)%nat).
Proof.
  rewrite place_world.
  destruct (for_in_attempts o retries (range retries) w)
    as (evs & Ht & Hc & _ & Ha & Hle & Hge).
  exists evs. rewrite length_range in Hle.
  repeat split; try assumption.
  intros Hr. apply Hge. intros Hnil.
  apply (f_equal (@length Z)) in Hnil. rewrite length_range in Hnil.
  cbn in Hnil. lia.
Qed.

(** The requests of a trace of attempts of [o] carry the symbol, the side
    and the quantity of [o]. *)
Lemma attempts_trace_requests (o : Order) (evs : list Event) :
  attempts_trace o evs ->
  forall req reply, In (EvCreateOrder req reply) evs ->
    req_symbol req = order_symbol o /\ req_side req = order_side o /\
    req_quantity req = order_quantity o.
Proof.
  induction 1 as [|se ofs st req0 reply0 tail rest Hs Hst Htail _ IH];
    intros req reply Hin.
  - destruct Hin.
  - repeat (apply in_app_or in Hin; destruct Hin as [Hin|Hin]).
    + destruct Hs; cbn in Hin; intuition discriminate.
    + destruct Hst; cbn in Hin; intuition discriminate.
    + cbn in Hin. destruct Hin as [Hin|[]]. inversion Hin; subst.
      eapply stamp_events_request; eassumption.
    + destruct Htail as [-> | ->]; cbn in Hin; intuition discriminate.
    + eapply IH; eassumption.
Qed.

(** * The claims *)

(** ** Retry on an invalid timestamp *)

(** C1. For every [retries >= 1] and every scripted client that rejects the
    first [k] order creations ([k < retries]) with the invalid-timestamp
    code -1021 and accepts the next one, each of the three submissions
    returns the accepted order, performs exactly [k + 1] order creations
    and exactly [k] sleeps, all of one second, and the accepted creation is
    the last event: no order creation follows the first success. *)
Theorem place_retries_until_success (o : Order) (retries : Z) (k : nat)
    (w : World) (order : OrderResponse) :
  1 <= retries ->
  Z.of_nat k < retries ->
  (forall i req, (i < k)%nat -> exists m,
      futures_create_order (client w)
        (count is_create_order (trace w) + i) req
      = Raises (BinanceAPIException (-1021) m)) ->
  (forall req,
      futures_create_order (client w)
        (count is_create_order (trace w) + k) req = Returns order) ->
  exists (evs : list Event) req w',
    place o retries w = (Returns (Some order), w') /\
    trace w' = trace w ++ evs ++ [EvCreateOrder req (Returns order)] /\
    count is_create_order (evs ++ [EvCreateOrder req (Returns order)])
    = S k /\
    count is_created evs = 0%nat /\
    count is_sleep (evs ++ [EvCreateOrder req (Returns order)]) = k /\
    count is_one_second_sleep evs = k.
Proof.
  intros Hret Hk Hfail Hok.
  destruct (for_in_retry_success o retries k 0 (Z.to_nat retries) w order)
    as (evs & req & w' & Hrun & Htr & h1 & h2 & h3 & h4);
    [lia | lia | exact Hfail | exact Hok |].
  exists evs, req, w'. rewrite place_unfold. unfold range. rewrite Hrun.
  repeat rewrite count_app. cbn.
  repeat split; try assumption; lia.
Qed.

Lemma place_retries_until_success_witness :
  1 <= 3 /\ Z.of_nat 2 < 3 /\
  exists (evs : list Event) req w',
    place (Market "BTCUSDT" "BUY" 1) 3 world_two_rejections
    = (Returns (Some sample_order), w') /\
    trace w' = trace world_two_rejections ++ evs
                 ++ [EvCreateOrder req (Returns sample_order)] /\
    count is_create_order (evs ++ [EvCreateOrder req (Returns sample_order)])
    = 3%nat /\
    count is_created evs = 0%nat /\
    count is_sleep (evs ++ [EvCreateOrder req (Returns sample_order)])
    = 2%nat /\
    count is_one_second_sleep evs = 2%nat.
Proof.
  split; [lia|]. split; [lia|].
  apply (place_retries_until_success (Market "BTCUSDT" "BUY" 1) 3 2
           world_two_rejections sample_order).
  - lia.
  - lia.
  - intros i req Hi. eexists.
    destruct i as [|[|i]]; [reflexivity | reflexivity | lia].
  - intros req. reflexivity.
Defined.

(** C2. For every [retries >= 1] and every scripted client that rejects the
    order creation with a code other than -1021, each of the three
    submissions performs exactly one order creation, no sleep, and returns
    [None] after logging that error as the reason. *)
Theorem place_no_retry_on_other_error (o : Order) (retries : Z) (w : World)
    (code : Z) (m : string) :
  1 <= retries ->
  code <> -1021 ->
  (forall req,
      futures_create_order (client w) (count is_create_order (trace w)) req
      = Raises (BinanceAPIException code m)) ->
  exists (evs : list Event) w',
    place o retries w = (Returns None, w') /\
    trace w' = trace w ++ evs /\
    count is_create_order evs = 1%nat /\
    count is_sleep evs = 0%nat /\
    last_error (log w') = Some (failed_msg o, BinanceAPIException code m).
Proof.
  intros Hret Hcode Hrej.
  rewrite place_unfold. unfold range.
  destruct (Z.to_nat retries) as [|n] eqn:Hn; [lia|]. cbn [seq map].
  destruct (for_in_cons o retries (Z.of_nat 0) (map Z.of_nat (seq 1 n)) w)
    as (se & ofs & st & req & lg & Hs & Hst & Heq).
  cbv zeta in Heq. rewrite Heq. clear Heq. rewrite Hrej.
  assert (Hretry : retries_after retries (Z.of_nat 0)
            (Raises (BinanceAPIException code m)) = false).
  { cbn. apply andb_false_iff. left. apply Z.eqb_neq. exact Hcode. }
  unfold attempt_result, attempt_tail, attempt_log. rewrite Hretry.
  eexists. eexists. split; [reflexivity|]. cbn.
  split; [reflexivity|].
  repeat rewrite count_app. rewrite app_assoc, last_error_snoc.
  destruct Hs, Hst; cbn; repeat split; reflexivity.
Qed.

Lemma place_no_retry_on_other_error_witness :
  1 <= 3 /\ -2019 <> -1021 /\
  exists (evs : list Event) w',
    place (Limit "BTCUSDT" "SELL" 1 50000) 3 world_insufficient_margin
    = (Returns None, w') /\
    trace w' = trace world_insufficient_margin ++ evs /\
    count is_create_order evs = 1%nat /\
    count is_sleep evs = 0%nat /\
    last_error (log w')
    = Some (failed_msg (Limit "BTCUSDT" "SELL" 1 50000),
            BinanceAPIException (-2019) "Margin is insufficient.").
Proof.
  split; [lia|]. split; [lia|].
  apply (place_no_retry_on_other_error (Limit "BTCUSDT" "SELL" 1 50000) 3
           world_insufficient_margin (-2019) "Margin is insufficient.").
  - lia.
  - lia.
  - intros req. reflexivity.
Defined.

(** C3. With [retries = 3] and a scripted client that rejects every order
    creation with the code -1021, each of the three submissions performs
    exactly three order creations (and two sleeps) and returns [None] after
    logging the error; and in any run whatever, the number of order
    creations never exceeds [retries]. *)
Theorem place_exhausts_three_attempts (o : Order) (w : World) :
  (forall i req, (i < 3)%nat -> exists m,
      futures_create_order (client w)
        (count is_create_order (trace w) + i) req
      = Raises (BinanceAPIException (-1021) m)) ->
  (exists (evs : list Event) w' m,
     place o 3 w = (Returns None, w') /\
     trace w' = trace w ++ evs /\
     count is_create_order evs = 3%nat /\
     count is_created evs = 0%nat /\
     count is_sleep evs = 2%nat /\
     last_error (log w')
     = Some (failed_msg o, BinanceAPIException (-1021) m)) /\
  (forall (o' : Order) (retries : Z) (w0 : World),
     (count is_create_order (trace (snd (place o' retries w0)))
      <= count is_create_order (trace w0) + Z.to_nat retries)%nat).
Proof.
  intros Hfail. split.
  - destruct (for_in_exhausted o 3 3 0 w)
      as (evs & w' & m & Hrun & Htr & h1 & h2 & h3 & h4);
      [lia | reflexivity | exact Hfail |].
    exists evs, w', m. rewrite place_unfold.
    change (range 3) with (map Z.of_nat (seq 0 3)). rewrite Hrun.
    repeat split; assumption.
  - intros o' retries w0.
    destruct (place_trace o' retries w0) as (evs & Ht & _ & _ & Hle & _).
    rewrite Ht, count_app. lia.
Qed.

Lemma place_exhausts_three_attempts_witness :
  (exists (evs : list Event) w' m,
     place (StopLimit "BTCUSDT" "SELL" 1 50000 49000) 3 world_clock_skewed
     = (Returns None, w') /\
     trace w' = trace world_clock_skewed ++ evs /\
     count is_create_order evs = 3%nat /\
     count is_created evs = 0%nat /\
     count is_sleep evs = 2%nat /\
     last_error (log w')
     = Some (failed_msg (StopLimit "BTCUSDT" "SELL" 1 50000 49000),
             BinanceAPIException (-1021) m)) /\
  (forall (o' : Order) (retries : Z) (w0 : World),
     (count is_create_order (trace (snd (place o' retries w0)))
      <= count is_create_order (trace w0) + Z.to_nat retries)%nat).
Proof.
  apply (place_exhausts_three_attempts
           (StopLimit "BTCUSDT" "SELL" 1 50000 49000) world_clock_skewed).
  intros i req Hi. eexists. reflexivity.
Defined.

(** C10. Called with [retries = 0], each of the three submissions returns
    [None] and leaves the world as it found it: no client call, no clock
    synchronisation, no sleep, because the loop body never runs. *)
Theorem place_zero_retries (o : Order) (w : World) :
  place o 0 w = (Returns None, w) /\
  count is_gateway_call (trace (snd (place o 0 w)))
  = count is_gateway_call (trace w) /\
  count is_get_server_time (trace (snd (place o 0 w)))
  = count is_get_server_time (trace w) /\
  count is_sleep (trace (snd (place o 0 w))) = count is_sleep (trace w).
Proof.
  assert (H : place o 0 w = (Returns None, w))
    by (destruct o; reflexivity).
  rewrite H. repeat split; reflexivity.
Qed.

(** ** Clock synchronisation and timestamps *)

Lemma attempts_trace_unstamped (o : Order) (evs : list Event) :
  attempts_trace o evs -> is_market o = false ->
  forall req reply, In (EvCreateOrder req reply) evs ->
    req = request_of o None.
Proof.
  intros Ha Hm.
  induction Ha as [|se ofs st req0 reply0 tl rest Hs Hst Htl _ IH];
    intros req reply Hin.
  - destruct Hin.
  - repeat (apply in_app_or in Hin; destruct Hin as [Hin|Hin]).
    + destruct Hs; cbn in Hin; intuition discriminate.
    + destruct Hst; cbn in Hin; intuition discriminate.
    + cbn in Hin. destruct Hin as [Hin|[]]. inversion Hin; subst.
      destruct Hst; [discriminate Hm|reflexivity|reflexivity].
    + destruct Htl as [-> | ->]; cbn in Hin; intuition discriminate.
    + eapply IH; eassumption.
Qed.

(** C9. On a call with at least one attempt, whatever the client answers,
    the events a submission appends to the trace are one or more attempts,
    each of which starts with a synchronisation of the clock and then
    creates the order, so that there are as many synchronisations as order
    creations.  The request of a market order carries the timestamp
    [int(now * 1000 + offset)], in binary64 arithmetic, with the offset the
    synchronisation of its attempt has just set.  The requests of limit and
    stop-limit orders carry no timestamp at all: the offset their attempts
    have just set is never used. *)
Theorem place_stamps_market_orders_only (o : Order) (retries : Z)
    (w : World) :
  1 <= retries ->
  exists evs : list Event,
    trace (snd (place o retries w)) = trace w ++ evs /\
    attempts_trace o evs /\
    (1 <= count is_create_order evs)%nat /\
    count is_get_server_time evs = count is_create_order evs /\
    (is_market o = false ->
     forall req reply, In (EvCreateOrder req reply) evs ->
       req = request_of o None).
Proof.
  intros Hr.
  destruct (place_trace o retries w) as (evs & Ht & _ & Ha & _ & Hge).
  exists evs. split; [exact Ht|]. split; [exact Ha|].
  split; [exact (Hge Hr)|].
  split; [apply (attempts_trace_counts o evs Ha)|].
  intros Hm. exact (attempts_trace_unstamped o evs Ha Hm).
Qed.

Lemma place_stamps_market_orders_only_witness :
  time_offset
    (snd (place (Limit "BTCUSDT" "BUY" (1 # 4) 50000) 1 world_with_metadata))
  = 250 /\
  exists evs : list Event,
    trace (snd (place (Limit "BTCUSDT" "BUY" (1 # 4) 50000) 1
                  world_with_metadata))
    = trace world_with_metadata ++ evs /\
    attempts_trace (Limit "BTCUSDT" "BUY" (1 # 4) 50000) evs /\
    (1 <= count is_create_order evs)%nat /\
    count is_get_server_time evs = count is_create_order evs /\
    (is_market (Limit "BTCUSDT" "BUY" (1 # 4) 50000) = false ->
     forall req reply, In (EvCreateOrder req reply) evs ->
       req = request_of (Limit "BTCUSDT" "BUY" (1 # 4) 50000) None).
Proof.
  split; [vm_compute; reflexivity|].
  apply (place_stamps_market_orders_only
           (Limit "BTCUSDT" "BUY" (1 # 4) 50000) 1 world_with_metadata).
  lia.
Defined.

(** The limit order of a bot whose clock is 250 ms behind the server: the
    attempt sets the offset to 250 and sends the request without a
    timestamp; the market order of the same bot sends the corrected time. *)
Example place_limit_order_leaves_the_offset_unused :
  trace (snd (place_limit_order "BTCUSDT" "BUY" (1 # 4) 50000 1
                world_with_metadata))
  = [ EvGetServerTime (Returns 1700000000250); EvTime 1700000000;
      EvCreateOrder
        {| req_symbol := "BTCUSDT"; req_side := "BUY"; req_type := "LIMIT";
           req_timeInForce := Some "GTC"; req_quantity := 1 # 4;
           req_price := Some 50000%Q; req_stopPrice := None;
           req_timestamp := None |}
        (Returns sample_order) ] /\
  trace (snd (place_market_order "BTCUSDT" "BUY" (1 # 4) 1
                world_with_metadata))
  = [ EvGetServerTime (Returns 1700000000250); EvTime 1700000000;
      EvTime 1700000001;
      EvCreateOrder
        {| req_symbol := "BTCUSDT"; req_side := "BUY"; req_type := "MARKET";
           req_timeInForce := None; req_quantity := 1 # 4;
           req_price := None; req_stopPrice := None;
           req_timestamp := Some 1700000001250 |}
        (Returns sample_order) ].
Proof. split; vm_compute; reflexivity. Qed.

(** * Further properties of the code *)

(** ** Loops whose body does not touch the world *)

(** A loop that returns at the first element satisfying [f] and otherwise
    goes on is a search. *)
Lemma for_in_find {X A : Type} (f : X -> bool) (g : X -> A) (l : list X)
    (w : World) :
  for_in l (fun x => if f x then mret (Return_ (g x)) else mret Continue) w
  = (Returns (match find f l with
              | Some x => Return_ (g x)
              | None => Continue
              end), w).
Proof.
  induction l as [|x l IH]; [reflexivity|].
  cbn [for_in find]. unfold mbind, Py_bind.
  destruct (f x); [reflexivity|]. cbn. exact IH.
Qed.

Lemma existsb_as_find {X : Type} (f : X -> bool) (l : list X) :
  existsb f l = match find f l with Some _ => true | None => false end.
Proof.
  induction l as [|x l IH]; [reflexivity|].
  cbn. destruct (f x); [reflexivity|exact IH].
Qed.

(** ** The instrument validator *)

Lemma validate_symbol_run (symbol : string) (w : World) :
  validate_symbol symbol w =
    match futures_exchange_info (client w)
            (count is_exchange_info (trace w)) with
    | Returns info =>
        (Returns
           (existsb (fun s => String.eqb (s_symbol s) symbol
                              && String.eqb (s_status s) "TRADING") info),
         record_event EvExchangeInfo w)
    | Raises e =>
        if is_api_exception e
        then (Returns false,
              {| client := client w; wall_clock := wall_clock w;
                 time_offset := time_offset w;
                 trace := trace w ++ [EvExchangeInfo];
                 log := log w ++ [{| levelname := ERROR;
                                     msg := "Error validating symbol: ";
                                     exc := Some e |}] |})
        else (Raises e, record_event EvExchangeInfo w)
    end.
Proof.
  unfold validate_symbol, try_except, mbind, Py_bind,
    client_futures_exchange_info. cbv zeta.
  destruct (futures_exchange_info (client w)
              (count is_exchange_info (trace w))) as [info|e].
  - rewrite (for_in_find
               (fun s => String.eqb (s_symbol s) symbol
                         && String.eqb (s_status s) "TRADING")
               (fun _ => true)).
    rewrite existsb_as_find. destruct (find _ info); reflexivity.
  - destruct e; reflexivity.
Qed.

Lemma validate_quantity_run (symbol : string) (quantity : Q) (w : World) :
  validate_quantity symbol quantity w =
    match futures_exchange_info (client w)
            (count is_exchange_info (trace w)) with
    | Returns info =>
        (quantity_verdict symbol quantity info,
         record_event EvExchangeInfo w)
    | Raises e =>
        if is_api_exception e
        then (Returns false,
              {| client := client w; wall_clock := wall_clock w;
                 time_offset := time_offset w;
                 trace := trace w ++ [EvExchangeInfo];
                 log := log w ++ [{| levelname := ERROR;
                                     msg := "Error validating quantity: ";
                                     exc := Some e |}] |})
        else (Raises e, record_event EvExchangeInfo w)
    end.
Proof.
  unfold validate_quantity, try_except, mbind, Py_bind,
    client_futures_exchange_info. cbv zeta.
  destruct (futures_exchange_info (client w)
              (count is_exchange_info (trace w))) as [info|e];
    [|destruct e; reflexivity].
  generalize (record_event EvExchangeInfo w). intros w1.
  unfold quantity_verdict, symbol_entry.
  induction info as [|s info IH]; [reflexivity|].
  cbn [for_in find]. unfold mbind, Py_bind.
  destruct (String.eqb (s_symbol s) symbol); [|exact IH].
  unfold getitem.
  destruct (filters_by_type (s_filters s) !! "LOT_SIZE") as [lot|];
    [|reflexivity].
  unfold mret, Py_ret.
  destruct (Qltb quantity (minQty lot) || Qltb (maxQty lot) quantity);
    [reflexivity|].
  unfold py_truediv.
  destruct (Qeq_bool (stepSize lot) 0); [reflexivity|].
  unfold mret, Py_ret.
  destruct (float_ne (float_mod (to_binary64 (quantity / stepSize lot)) 1) 0);
    reflexivity.
Qed.

(** ** Rounding to binary64 *)

Lemma log2_ratio_below (n d : Z) :
  0 < n -> 0 < d ->
  (0 <= log2_ratio n d -> d * 2 ^ log2_ratio n d <= n) /\
  (log2_ratio n d < 0 -> d <= n * 2 ^ (- log2_ratio n d)).
Proof.
  intros Hn Hd. unfold log2_ratio.
  destruct (Z.log2_spec n Hn) as [Hn1 Hn2].
  destruct (Z.log2_spec d Hd) as [Hd1 Hd2].
  pose proof (Z.log2_nonneg n) as Hln.
  pose proof (Z.log2_nonneg d) as Hld.
  set (a := Z.log2 n) in *. set (b := Z.log2 d) in *.
  assert (Hpow : forall x y, 0 <= x -> 0 <= y -> 2 ^ (x + y) = 2 ^ x * 2 ^ y).
  { intros x y Hx Hy. apply Z.pow_add_r; assumption. }
  assert (Hpos : forall x, 0 <= x -> 0 < 2 ^ x).
  { intros x Hx. apply Z.pow_pos_nonneg; lia. }
  destruct (Z.geb_spec (a - b) 0) as [Hl|Hl].
  - destruct (Z.leb_spec (d * 2 ^ (a - b)) n) as [Hle|Hgt].
    + split; [intros _; exact Hle | lia].
    + split.
      * intros H0.
        assert (E : 2 ^ a = 2 ^ (Z.succ b) * 2 ^ (a - b - 1)).
        { rewrite <- Hpow by lia. f_equal. lia. }
        pose proof (Hpos (a - b - 1) H0). nia.
      * intros H0. assert (Eab : a - b = 0) by lia.
        replace (- (a - b - 1)) with 1 by lia.
        replace a with b in * by lia.
        rewrite Z.pow_succ_r in Hd2 by lia. change (2 ^ 1) with 2. lia.
  - destruct (Z.leb_spec d (n * 2 ^ (- (a - b)))) as [Hle|Hgt].
    + split; [lia | intros _; exact Hle].
    + split; [lia|]. intros _.
      replace (- (a - b - 1)) with (Z.succ b - a) by lia.
      assert (E : 2 ^ (Z.succ b) = 2 ^ a * 2 ^ (Z.succ b - a)).
      { rewrite <- Hpow by lia. f_equal. lia. }
      pose proof (Hpos (Z.succ b - a) ltac:(lia)). nia.
Qed.

Lemma round_half_even_floor (n d : Z) : n / d <= round_half_even n d.
Proof.
  unfold round_half_even. cbv zeta.
  destruct (2 * (n mod d) ?= d)%Z; [destruct (Z.even (n / d))| |]; lia.
Qed.

Lemma round_half_even_pos (n d : Z) :
  0 < d -> d <= n -> 1 <= round_half_even n d.
Proof.
  intros Hd Hn. pose proof (round_half_even_floor n d).
  assert (1 <= n / d) by (apply Z.div_le_lower_bound; lia). lia.
Qed.

Lemma pow2_pos (x : Z) : 0 <= x -> 0 < 2 ^ x.
Proof. intros Hx. apply Z.pow_pos_nonneg; lia. Qed.

Lemma pow2_split (x y : Z) : 0 <= x -> 0 <= y -> 2 ^ (x + y) = 2 ^ x * 2 ^ y.
Proof. intros Hx Hy. apply Z.pow_add_r; assumption. Qed.

(** A quotient of at least [2 ^ -1074] is not rounded to zero. *)
Lemma round64_pos_positive (n d : Z) :
  0 < n -> 0 < d -> d <= n * 2 ^ 1074 -> (0 < round64_pos n d)%Q.
Proof.
  intros Hn Hd Hsub. unfold round64_pos. cbv zeta.
  destruct (log2_ratio_below n d Hn Hd) as [Hl1 Hl2].
  set (l := log2_ratio n d) in *.
  destruct (Z.geb_spec (Z.max (l - 52) (-1074)) 0) as [He|He].
  - replace (Z.max (l - 52) (-1074)) with (l - 52) by lia.
    assert (Hl : 0 <= l - 52) by lia.
    pose proof (pow2_pos (l - 52) Hl) as Hp.
    assert (E : 2 ^ l = 2 ^ (l - 52) * 2 ^ 52).
    { rewrite <- pow2_split by lia. f_equal. lia. }
    pose proof (pow2_pos 52 ltac:(lia)) as Hp52.
    assert (Hle : d * 2 ^ (l - 52) <= n).
    { specialize (Hl1 ltac:(lia)). nia. }
    pose proof (round_half_even_pos n (d * 2 ^ (l - 52)) ltac:(nia) Hle).
    unfold Qlt. cbn [Qnum Qden inject_Z]. nia.
  - set (e := Z.max (l - 52) (-1074)) in *.
    assert (Hle : d <= n * 2 ^ (- e)).
    { destruct (Z.le_gt_cases (-1074) (l - 52)) as [Hc|Hc].
      - replace e with (l - 52) in * by lia.
        destruct (Z.le_gt_cases 0 l) as [H0|H0].
        + specialize (Hl1 H0).
          pose proof (pow2_pos l H0). pose proof (pow2_pos (- (l - 52)) ltac:(lia)).
          nia.
        + specialize (Hl2 H0).
          assert (E : 2 ^ (- (l - 52)) = 2 ^ (- l) * 2 ^ 52).
          { rewrite <- pow2_split by lia. f_equal. lia. }
          pose proof (pow2_pos 52 ltac:(lia)). pose proof (pow2_pos (- l) ltac:(lia)).
          nia.
      - replace e with (-1074) by lia. exact Hsub. }
    pose proof (round_half_even_pos (n * 2 ^ (- e)) d Hd Hle).
    unfold Qlt. cbn [Qnum Qden]. lia.
Qed.

(** Every binary64 is a whole multiple of [2 ^ -1074]. *)
Lemma round64_pos_dyadic (n d : Z) :
  exists m : Z, (round64_pos n d * inject_Z (2 ^ 1074) == inject_Z m)%Q.
Proof.
  unfold round64_pos. cbv zeta.
  set (e := Z.max (log2_ratio n d - 52) (-1074)).
  assert (He : -1074 <= e) by (unfold e; lia).
  destruct (Z.geb_spec e 0) as [H0|H0].
  - eexists. rewrite <- inject_Z_mult. reflexivity.
  - set (k := round_half_even (n * 2 ^ (- e)) d).
    exists (k * 2 ^ (1074 + e)).
    assert (E : 2 ^ 1074 = 2 ^ (1074 + e) * 2 ^ (- e)).
    { rewrite <- pow2_split by lia. f_equal. lia. }
    pose proof (pow2_pos (- e) ltac:(lia)) as Hp.
    unfold Qeq. cbn [Qnum Qden Qmult inject_Z].
    rewrite Pos.mul_1_r, Z2Pos.id by exact Hp. rewrite E. ring.
Qed.

Lemma round64_dyadic (x : Q) :
  exists m : Z, (round64 x * inject_Z (2 ^ 1074) == inject_Z m)%Q.
Proof.
  unfold round64. destruct (Qnum (Qred x)) as [|n|n].
  - exists 0. reflexivity.
  - apply round64_pos_dyadic.
  - destruct (round64_pos_dyadic (Z.pos n) (Z.pos (Qden (Qred x)))) as [m Hm].
    exists (- m). rewrite inject_Z_opp, <- Hm. ring.
Qed.

Lemma round64_of_zero (x : Q) : (x == 0)%Q -> round64 x = 0%Q.
Proof.
  intros Hx. unfold round64.
  rewrite (Qred_complete x 0 Hx). reflexivity.
Qed.

(** A positive multiple of [2 ^ -1074] is not rounded to zero. *)
Lemma round64_of_positive (x : Q) (m : Z) :
  (0 < x)%Q -> (x * inject_Z (2 ^ 1074) == inject_Z m)%Q ->
  (0 < round64 x)%Q.
Proof.
  intros Hx Hm. unfold round64.
  pose proof (Qred_correct x) as Hred.
  rewrite <- Hred in Hx, Hm.
  destruct (Qred x) as [n d]. cbn [Qnum Qden].
  set (P := 2 ^ 1074) in *.
  assert (HP : 0 < P) by (apply pow2_pos; lia).
  unfold Qlt in Hx. unfold Qeq in Hm.
  cbn [Qnum Qden Qmult inject_Z] in Hx, Hm.
  rewrite Pos.mul_1_r in Hm.
  destruct n as [|n|n]; try lia.
  apply round64_pos_positive; try lia.
  fold P. assert (Hm0 : 0 < m) by nia. nia.
Qed.




(** ** The remainder by one *)

Lemma py_mod_1_zero (r : Q) (m : Z) :
  (r * inject_Z (2 ^ 1074) == inject_Z m)%Q ->
  Qeq_bool (py_mod r 1) 0 = true <-> exists k : Z, (r == inject_Z k)%Q.
Proof.
  intros Hm. unfold py_mod.
  assert (Hf : Qfloor (r / 1) = Qfloor r).
  { apply Qfloor_comp. field. }
  rewrite Hf. split.
  - intros H. apply Qeq_bool_iff in H.
    destruct (Qeq_dec (r - 1 * inject_Z (Qfloor r)) 0) as [Hx|Hx].
    + exists (Qfloor r). lra.
    + exfalso. pose proof (Qfloor_le r) as Hle.
      assert (Hpos : (0 < r - 1 * inject_Z (Qfloor r))%Q) by lra.
      assert (Hd : ((r - 1 * inject_Z (Qfloor r)) * inject_Z (2 ^ 1074)
                    == inject_Z (m - Qfloor r * 2 ^ 1074))%Q).
      { unfold Zminus. rewrite inject_Z_plus, inject_Z_opp, inject_Z_mult.
        rewrite <- Hm. ring. }
      pose proof (round64_of_positive _ _ Hpos Hd) as Hr.
      rewrite H in Hr. revert Hr. apply Qlt_irrefl.
  - intros [k Hk].
    assert (Hfk : Qfloor r = k).
    { rewrite <- (Qfloor_Z k). apply Qfloor_comp. exact Hk. }
    rewrite round64_of_zero; [reflexivity|]. rewrite Hfk, Hk. ring.
Qed.

(** The remainder by one of a binary64 quotient is zero exactly when the
    quotient is a whole number; that of an infinity is not a number. *)
Lemma float_mod_1_zero (q : Q) :
  float_ne (float_mod (to_binary64 q) 1) 0 = false <->
  exists (r : Q) (k : Z), to_binary64 q = Num r /\ (r == inject_Z k)%Q.
Proof.
  unfold to_binary64.
  destruct (Qle_bool (inject_Z (2 ^ 1024)) (Qabs (round64 q))).
  - cbn. split; [discriminate|]. intros (r & k & H & _). discriminate H.
  - cbn [float_mod float_ne]. rewrite negb_false_iff.
    destruct (round64_dyadic q) as [m Hm].
    rewrite (py_mod_1_zero _ m Hm). split.
    + intros [k Hk]. exists (round64 q), k. split; [reflexivity|exact Hk].
    + intros (r & k & Hr & Hk). exists k. injection Hr as <-. exact Hk.
Qed.

(** ** Whole multiples *)


Lemma Qltb_lt (x y : Q) : Qltb x y = true <-> (x < y)%Q.
Proof.
  unfold Qltb. rewrite negb_true_iff. split.
  - intros H. apply Qnot_le_lt. intros Hle.
    apply Qle_bool_iff in Hle. congruence.
  - intros H. destruct (Qle_bool y x) eqn:E; [|reflexivity].
    apply Qle_bool_iff in E. lra.
Qed.

Lemma Qltb_ge (x y : Q) : Qltb x y = false <-> (y <= x)%Q.
Proof.
  unfold Qltb. rewrite negb_false_iff. apply Qle_bool_iff.
Qed.

(** ** What the validator accepts *)

(** X1. When the metadata arrives and the first entry of the symbol has a
    lot-size filter with a step other than zero, [validate_quantity] accepts
    a quantity exactly when it lies between the minimum and the maximum and
    the quotient of the quantity by the step, as binary64 rounds it, is a
    finite whole number; it calls the metadata endpoint once and nothing
    else. *)
Theorem validate_quantity_accepts_iff (symbol : string) (quantity : Q)
    (w : World) (info : list SymbolInfo) (s : SymbolInfo) (lot : Filter) :
  futures_exchange_info (client w) (count is_exchange_info (trace w))
  = Returns info ->
  symbol_entry symbol info = Some s ->
  filters_by_type (s_filters s) !! "LOT_SIZE" = Some lot ->
  ~ (stepSize lot == 0)%Q ->
  exists b : bool,
    validate_quantity symbol quantity w
    = (Returns b, record_event EvExchangeInfo w) /\
    (b = true <->
     (minQty lot <= quantity)%Q /\ (quantity <= maxQty lot)%Q /\
     whole_quotient quantity (stepSize lot)).
Proof.
  intros Hinfo Hs Hlot Hstep.
  rewrite validate_quantity_run, Hinfo. unfold quantity_verdict.
  rewrite Hs, Hlot.
  destruct (Qltb quantity (minQty lot) || Qltb (maxQty lot) quantity)
    eqn:Hrange.
  - exists false. split; [reflexivity|]. split; [discriminate|].
    intros (Hmin & Hmax & _). apply orb_true_iff in Hrange.
    destruct Hrange as [H|H]; apply Qltb_lt in H; lra.
  - apply orb_false_iff in Hrange. destruct Hrange as [Hmin Hmax].
    apply Qltb_ge in Hmin. apply Qltb_ge in Hmax.
    destruct (Qeq_bool (stepSize lot) 0) eqn:Hz.
    { apply Qeq_bool_iff in Hz. contradiction. }
    eexists. split; [reflexivity|].
    rewrite negb_true_iff, float_mod_1_zero. unfold whole_quotient. tauto.
Qed.

Lemma validate_quantity_accepts_iff_witness :
  exists b : bool,
    validate_quantity "BTCUSDT" (round64 (43 # 1000)) world_float_metadata
    = (Returns b, record_event EvExchangeInfo world_float_metadata) /\
    (b = true <->
     (round64 (1 # 1000) <= round64 (43 # 1000))%Q /\
     (round64 (43 # 1000) <= 1000)%Q /\
     whole_quotient (round64 (43 # 1000)) (round64 (1 # 1000))).
Proof.
  apply (validate_quantity_accepts_iff "BTCUSDT" (round64 (43 # 1000))
           world_float_metadata float_info
           {| s_symbol := "BTCUSDT"; s_status := "TRADING";
              s_filters :=
                [ {| filterType := "LOT_SIZE"; minQty := round64 (1 # 1000);
                     maxQty := 1000; stepSize := round64 (1 # 1000) |} ] |}
           {| filterType := "LOT_SIZE"; minQty := round64 (1 # 1000);
              maxQty := 1000; stepSize := round64 (1 # 1000) |}).
  - reflexivity.
  - reflexivity.
  - vm_compute. reflexivity.
  - vm_compute. intros H. discriminate H.
Defined.

(** The quantity 0.043 in steps of 0.001, both as [float] reads them: the
    quotient is 42.99999999999999 and the validator refuses the quantity. *)
Example validate_quantity_refuses_a_rounded_quotient :
  to_binary64 (round64 (43 # 1000) / round64 (1 # 1000))
  = Num (6051711999279103 # 140737488355328) /\
  fst (validate_quantity "BTCUSDT" (round64 (43 # 1000))
         world_float_metadata)
  = Returns false.
Proof. split; vm_compute; reflexivity. Qed.

(** X2. A quantity below the minimum or above the maximum of the lot-size
    filter is refused whatever the step is, even a step of zero: the
    division is never reached. *)
Theorem validate_quantity_out_of_range (symbol : string) (quantity : Q)
    (w : World) (info : list SymbolInfo) (s : SymbolInfo) (lot : Filter) :
  futures_exchange_info (client w) (count is_exchange_info (trace w))
  = Returns info ->
  symbol_entry symbol info = Some s ->
  filters_by_type (s_filters s) !! "LOT_SIZE" = Some lot ->
  (quantity < minQty lot)%Q \/ (maxQty lot < quantity)%Q ->
  validate_quantity symbol quantity w
  = (Returns false, record_event EvExchangeInfo w).
Proof.
  intros Hinfo Hs Hlot Hout.
  rewrite validate_quantity_run, Hinfo. unfold quantity_verdict.
  rewrite Hs, Hlot.
  assert (H : Qltb quantity (minQty lot) || Qltb (maxQty lot) quantity
              = true).
  { apply orb_true_iff. destruct Hout as [H|H]; [left|right];
      apply Qltb_lt; exact H. }
  rewrite H. reflexivity.
Qed.

Lemma validate_quantity_out_of_range_witness :
  validate_quantity "XRPUSDT" 11 world_with_metadata
  = (Returns false, record_event EvExchangeInfo world_with_metadata).
Proof.
  apply (validate_quantity_out_of_range "XRPUSDT" 11 world_with_metadata
           sample_info
           {| s_symbol := "XRPUSDT"; s_status := "TRADING";
              s_filters :=
                [ {| filterType := "LOT_SIZE"; minQty := 0; maxQty := 10;
                     stepSize := 0 |} ] |}
           {| filterType := "LOT_SIZE"; minQty := 0; maxQty := 10;
              stepSize := 0 |}).
  - reflexivity.
  - reflexivity.
  - vm_compute. reflexivity.
  - right. reflexivity.
Defined.

(** X3. A quantity within the bounds of a lot-size filter whose step is
    zero makes [validate_quantity] raise [ZeroDivisionError]: the handler
    catches [BinanceAPIException] only, so the caller gets the exception
    instead of a boolean. *)
Theorem validate_quantity_zero_step_raises (symbol : string) (quantity : Q)
    (w : World) (info : list SymbolInfo) (s : SymbolInfo) (lot : Filter) :
  futures_exchange_info (client w) (count is_exchange_info (trace w))
  = Returns info ->
  symbol_entry symbol info = Some s ->
  filters_by_type (s_filters s) !! "LOT_SIZE" = Some lot ->
  (minQty lot <= quantity)%Q -> (quantity <= maxQty lot)%Q ->
  (stepSize lot == 0)%Q ->
  exists m : string,
    validate_quantity symbol quantity w
    = (Raises (ZeroDivisionError m), record_event EvExchangeInfo w).
Proof.
  intros Hinfo Hs Hlot Hmin Hmax Hstep.
  rewrite validate_quantity_run, Hinfo. unfold quantity_verdict.
  rewrite Hs, Hlot.
  apply Qltb_ge in Hmin. apply Qltb_ge in Hmax. rewrite Hmin, Hmax.
  apply Qeq_bool_iff in Hstep. cbn [orb]. rewrite Hstep.
  eexists. reflexivity.
Qed.

Lemma validate_quantity_zero_step_raises_witness :
  exists m : string,
    validate_quantity "XRPUSDT" 5 world_with_metadata
    = (Raises (ZeroDivisionError m),
       record_event EvExchangeInfo world_with_metadata).
Proof.
  apply (validate_quantity_zero_step_raises "XRPUSDT" 5 world_with_metadata
           sample_info
           {| s_symbol := "XRPUSDT"; s_status := "TRADING";
              s_filters :=
                [ {| filterType := "LOT_SIZE"; minQty := 0; maxQty := 10;
                     stepSize := 0 |} ] |}
           {| filterType := "LOT_SIZE"; minQty := 0; maxQty := 10;
              stepSize := 0 |}).
  - reflexivity.
  - reflexivity.
  - vm_compute. reflexivity.
  - cbn. discriminate.
  - cbn. discriminate.
  - reflexivity.
Defined.

(** X4. When the first entry of the symbol lists no filter of type
    LOT_SIZE, [validate_quantity] raises [KeyError] to its caller, whatever
    the quantity. *)
Theorem validate_quantity_missing_lot_size (symbol : string) (quantity : Q)
    (w : World) (info : list SymbolInfo) (s : SymbolInfo) :
  futures_exchange_info (client w) (count is_exchange_info (trace w))
  = Returns info ->
  symbol_entry symbol info = Some s ->
  (forall f, In f (s_filters s) -> filterType f <> "LOT_SIZE") ->
  validate_quantity symbol quantity w
  = (Raises (KeyError "LOT_SIZE"), record_event EvExchangeInfo w).
Proof.
  intros Hinfo Hs Hnone.
  rewrite validate_quantity_run, Hinfo. unfold quantity_verdict.
  rewrite Hs.
  assert (H : filters_by_type (s_filters s) !! "LOT_SIZE" = None).
  { unfold filters_by_type.
    assert (G : forall fs (d : gmap string Filter),
               (forall f, In f fs -> filterType f <> "LOT_SIZE") ->
               d !! "LOT_SIZE" = None ->
               foldl (fun d f => <[filterType f := f]> d) d fs
                 !! "LOT_SIZE" = None).
    { induction fs as [|f fs IH]; intros d Hfs Hd; [exact Hd|].
      cbn [foldl]. apply IH.
      - intros f' Hf'. apply Hfs. right. exact Hf'.
      - rewrite lookup_insert_ne; [exact Hd|]. apply Hfs. left. reflexivity. }
    apply G; [exact Hnone|]. apply lookup_empty. }
  rewrite H. reflexivity.
Qed.

Lemma validate_quantity_missing_lot_size_witness :
  validate_quantity "ETHUSDT" 1 world_with_metadata
  = (Raises (KeyError "LOT_SIZE"),
     record_event EvExchangeInfo world_with_metadata).
Proof.
  apply (validate_quantity_missing_lot_size "ETHUSDT" 1 world_with_metadata
           sample_info
           {| s_symbol := "ETHUSDT"; s_status := "BREAK";
              s_filters := [] |}).
  - reflexivity.
  - reflexivity.
  - intros f Hf. destruct Hf.
Defined.

Lemma find_append {X : Type} (f : X -> bool) (l1 l2 : list X) :
  find f (l1 ++ l2)
  = match find f l1 with Some x => Some x | None => find f l2 end.
Proof.
  induction l1 as [|x l1 IH]; [reflexivity|].
  cbn. destruct (f x); [reflexivity|exact IH].
Qed.

(** X5. The dictionary that [validate_quantity] builds from the filters of
    an entry maps a filter type to the last filter of that type in the
    list: a later duplicate replaces an earlier one. *)
Theorem filters_by_type_last_wins (fs : list Filter) (k : string) :
  filters_by_type fs !! k = last_filter_of_type k fs.
Proof.
  unfold filters_by_type, last_filter_of_type.
  assert (G : forall fs (d : gmap string Filter),
             foldl (fun d f => <[filterType f := f]> d) d fs !! k
             = match find (fun f => String.eqb (filterType f) k) (rev fs)
               with
               | Some f => Some f
               | None => d !! k
               end).
  { clear fs. induction fs as [|f fs IH]; intros d; [reflexivity|].
    cbn [foldl rev]. rewrite IH, find_append.
    destruct (find _ (rev fs)) as [f'|]; [reflexivity|].
    cbn [find]. destruct (String.eqb_spec (filterType f) k) as [<-|Hne].
    - apply lookup_insert_eq.
    - apply lookup_insert_ne. exact Hne. }
  rewrite G. destruct (find _ (rev fs)); [reflexivity|apply lookup_empty].
Qed.

(** X6. When the metadata arrives, [validate_symbol] answers true exactly
    when some entry carries the symbol with the status TRADING, and it
    calls the metadata endpoint once and nothing else.  An entry of the
    same symbol with another status before it does not hide it. *)
Theorem validate_symbol_tradable_iff (symbol : string) (w : World)
    (info : list SymbolInfo) :
  futures_exchange_info (client w) (count is_exchange_info (trace w))
  = Returns info ->
  exists b : bool,
    validate_symbol symbol w = (Returns b, record_event EvExchangeInfo w) /\
    (b = true <->
     exists s, In s info /\ s_symbol s = symbol /\ s_status s = "TRADING").
Proof.
  intros Hinfo. rewrite validate_symbol_run, Hinfo.
  eexists. split; [reflexivity|].
  rewrite existsb_exists. split; intros (s & Hin & H); exists s.
  - apply andb_true_iff in H. destruct H as [H1 H2].
    apply String.eqb_eq in H1. apply String.eqb_eq in H2. auto.
  - split; [exact Hin|]. destruct H as [H1 H2].
    apply andb_true_iff. split; apply String.eqb_eq; assumption.
Qed.

Lemma validate_symbol_tradable_iff_witness :
  exists b : bool,
    validate_symbol "BTCUSDT" world_with_metadata
    = (Returns b, record_event EvExchangeInfo world_with_metadata) /\
    (b = true <->
     exists s, In s sample_info /\ s_symbol s = "BTCUSDT"
               /\ s_status s = "TRADING").
Proof.
  apply (validate_symbol_tradable_iff "BTCUSDT" world_with_metadata
           sample_info).
  reflexivity.
Defined.

(** ** How the validator fails *)

(** X7. When the metadata call fails with a [BinanceAPIException], both
    checks answer false instead of raising, log the error and have called
    the metadata endpoint once and nothing else. *)
Theorem validators_refuse_on_api_error (symbol : string) (quantity : Q)
    (w : World) (code : Z) (m : string) :
  futures_exchange_info (client w) (count is_exchange_info (trace w))
  = Raises (BinanceAPIException code m) ->
  (exists w1,
     validate_symbol symbol w = (Returns false, w1) /\
     trace w1 = trace w ++ [EvExchangeInfo] /\
     last_error (log w1)
     = Some ("Error validating symbol: ", BinanceAPIException code m)) /\
  (exists w2,
     validate_quantity symbol quantity w = (Returns false, w2) /\
     trace w2 = trace w ++ [EvExchangeInfo] /\
     last_error (log w2)
     = Some ("Error validating quantity: ", BinanceAPIException code m)).
Proof.
  intros Hinfo. split.
  - rewrite validate_symbol_run, Hinfo. cbn [is_api_exception].
    eexists. split; [reflexivity|]. cbn [trace log].
    split; [reflexivity|apply last_error_snoc].
  - rewrite validate_quantity_run, Hinfo. cbn [is_api_exception].
    eexists. split; [reflexivity|]. cbn [trace log].
    split; [reflexivity|apply last_error_snoc].
Qed.

Lemma validators_refuse_on_api_error_witness :
  (exists w1,
     validate_symbol "BTCUSDT" world_metadata_rejected = (Returns false, w1) /\
     trace w1 = trace world_metadata_rejected ++ [EvExchangeInfo] /\
     last_error (log w1)
     = Some ("Error validating symbol: ",
             BinanceAPIException (-1003) "Too many requests.")) /\
  (exists w2,
     validate_quantity "BTCUSDT" 1 world_metadata_rejected
     = (Returns false, w2) /\
     trace w2 = trace world_metadata_rejected ++ [EvExchangeInfo] /\
     last_error (log w2)
     = Some ("Error validating quantity: ",
             BinanceAPIException (-1003) "Too many requests.")).
Proof.
  apply (validators_refuse_on_api_error "BTCUSDT" 1 world_metadata_rejected
           (-1003) "Too many requests.").
  reflexivity.
Defined.

(** X8. When the metadata call fails with any exception that is not a
    [BinanceAPIException] (a transport error, a malformed reply), both
    checks let it escape to the caller and log nothing. *)
Theorem validators_let_other_exceptions_escape (symbol : string)
    (quantity : Q) (w : World) (e : exn) :
  futures_exchange_info (client w) (count is_exchange_info (trace w))
  = Raises e ->
  is_api_exception e = false ->
  validate_symbol symbol w = (Raises e, record_event EvExchangeInfo w) /\
  validate_quantity symbol quantity w
  = (Raises e, record_event EvExchangeInfo w).
Proof.
  intros Hinfo He. rewrite validate_symbol_run, validate_quantity_run, Hinfo.
  rewrite He. split; reflexivity.
Qed.

Lemma validators_let_other_exceptions_escape_witness :
  validate_symbol "BTCUSDT" world_metadata_unreachable
  = (Raises (ConnectionError "Connection refused"),
     record_event EvExchangeInfo world_metadata_unreachable) /\
  validate_quantity "BTCUSDT" 1 world_metadata_unreachable
  = (Raises (ConnectionError "Connection refused"),
     record_event EvExchangeInfo world_metadata_unreachable).
Proof.
  apply (validators_let_other_exceptions_escape "BTCUSDT" 1
           world_metadata_unreachable
           (ConnectionError "Connection refused")).
  - reflexivity.
  - reflexivity.
Defined.

Lemma validate_symbol_same_reply (symbol : string) (w1 w2 : World) :
  futures_exchange_info (client w1) (count is_exchange_info (trace w1))
  = futures_exchange_info (client w2) (count is_exchange_info (trace w2)) ->
  fst (validate_symbol symbol w1) = fst (validate_symbol symbol w2).
Proof.
  intros H. rewrite !validate_symbol_run, H.
  destruct (futures_exchange_info (client w2) _) as [info|e];
    [reflexivity|]. destruct (is_api_exception e); reflexivity.
Qed.

Lemma validate_quantity_same_reply (symbol : string) (quantity : Q)
    (w1 w2 : World) :
  futures_exchange_info (client w1) (count is_exchange_info (trace w1))
  = futures_exchange_info (client w2) (count is_exchange_info (trace w2)) ->
  fst (validate_quantity symbol quantity w1)
  = fst (validate_quantity symbol quantity w2).
Proof.
  intros H. rewrite !validate_quantity_run, H.
  destruct (futures_exchange_info (client w2) _) as [info|e];
    [reflexivity|]. destruct (is_api_exception e); reflexivity.
Qed.

(** Either check leaves the client as it was and appends one call of the
    metadata endpoint to the trace, however it ends. *)
Lemma validate_symbol_world (symbol : string) (w : World) :
  client (snd (validate_symbol symbol w)) = client w /\
  trace (snd (validate_symbol symbol w)) = trace w ++ [EvExchangeInfo].
Proof.
  rewrite validate_symbol_run.
  destruct (futures_exchange_info (client w) _) as [info|e];
    [split; reflexivity|].
  destruct (is_api_exception e); split; reflexivity.
Qed.

Lemma validate_quantity_world (symbol : string) (quantity : Q) (w : World) :
  client (snd (validate_quantity symbol quantity w)) = client w /\
  trace (snd (validate_quantity symbol quantity w))
  = trace w ++ [EvExchangeInfo].
Proof.
  rewrite validate_quantity_run.
  destruct (futures_exchange_info (client w) _) as [info|e];
    [split; reflexivity|].
  destruct (is_api_exception e); split; reflexivity.
Qed.

(** X9. The answer of either check depends on the reply of the metadata
    endpoint alone: asked again while the exchange answers the same
    snapshot, each check answers as before. *)
Theorem validators_repeat_their_answer (symbol : string) (quantity : Q)
    (w : World) :
  futures_exchange_info (client w) (S (count is_exchange_info (trace w)))
  = futures_exchange_info (client w) (count is_exchange_info (trace w)) ->
  fst (validate_symbol symbol (snd (validate_symbol symbol w)))
  = fst (validate_symbol symbol w) /\
  fst (validate_quantity symbol quantity
         (snd (validate_quantity symbol quantity w)))
  = fst (validate_quantity symbol quantity w).
Proof.
  intros Hsame. split.
  - apply validate_symbol_same_reply.
    destruct (validate_symbol_world symbol w) as [-> ->].
    rewrite count_app. cbn. rewrite <- Hsame. f_equal. lia.
  - apply validate_quantity_same_reply.
    destruct (validate_quantity_world symbol quantity w) as [-> ->].
    rewrite count_app. cbn. rewrite <- Hsame. f_equal. lia.
Qed.

Lemma validators_repeat_their_answer_witness :
  fst (validate_symbol "BTCUSDT"
         (snd (validate_symbol "BTCUSDT" world_with_metadata)))
  = fst (validate_symbol "BTCUSDT" world_with_metadata) /\
  fst (validate_quantity "BTCUSDT" (25 # 1000)
         (snd (validate_quantity "BTCUSDT" (25 # 1000) world_with_metadata)))
  = fst (validate_quantity "BTCUSDT" (25 # 1000) world_with_metadata).
Proof.
  apply (validators_repeat_their_answer "BTCUSDT" (25 # 1000)
           world_with_metadata).
  reflexivity.
Defined.

(** ** The position closer *)

Lemma get_position_run (symbol : string) (w : World) :
  get_position symbol w =
    match futures_position_information (client w)
            (count is_position_information (trace w)) with
    | Returns positions =>
        (Returns (open_position symbol positions),
         record_event EvPositionInformation w)
    | Raises e =>
        (Returns None,
         log_error "Error getting position: " e
           (record_event EvPositionInformation w))
    end.
Proof.
  unfold get_position, try_except, mbind, Py_bind,
    client_futures_position_information. cbv zeta.
  destruct (futures_position_information (client w)
              (count is_position_information (trace w))) as [ps|e];
    [|reflexivity].
  rewrite (for_in_find
             (fun p => String.eqb (p_symbol p) symbol
                       && negb (Qeq_bool (positionAmt p) 0))
             (fun p => Some p)).
  unfold open_position. destruct (find _ ps); reflexivity.
Qed.

Lemma open_position_found (symbol : string) (ps : list Position)
    (p : Position) :
  open_position symbol ps = Some p ->
  In p ps /\ p_symbol p = symbol /\ ~ (positionAmt p == 0)%Q.
Proof.
  unfold open_position. intros H. apply find_some in H.
  destruct H as [Hin H]. apply andb_true_iff in H. destruct H as [H1 H2].
  apply String.eqb_eq in H1. apply negb_true_iff in H2.
  repeat split; try assumption.
  intros Hz. apply Qeq_bool_iff in Hz. congruence.
Qed.

(** [close_position] first settles the side and the quantity, fetching the
    position unless both are given, then goes on as [close_resolved]. *)
Lemma close_position_split (symbol : string) (side : option string)
    (quantity : option Q) (order_type : string) (price : option Q)
    (retries : Z) (w : World) :
  close_position symbol side quantity order_type price retries w =
    match side, quantity with
    | Some sd, Some q =>
        close_resolved symbol sd q order_type price retries w
    | _, _ =>
        match get_position symbol w with
        | (Returns (Some p), w1) =>
            close_resolved symbol
              (match side with Some sd => sd | None => closing_side p end)
              (match quantity with
               | Some q => q
               | None => Qabs (positionAmt p)
               end)
              order_type price retries w1
        | (Returns None, w1) =>
            (Returns None,
             log_error "Failed to close position: "
               (ValueError "No open position found") w1)
        | (Raises e, w1) =>
            (Returns None, log_error "Failed to close position: " e w1)
        end
    end.
Proof.
  unfold close_position, close_resolved, try_except, mbind, Py_bind.
  destruct side as [sd|], quantity as [q|]; cbn beta iota.
  - reflexivity.
  - destruct (get_position symbol w) as [[[p|]|e] w1]; reflexivity.
  - destruct (get_position symbol w) as [[[p|]|e] w1]; reflexivity.
  - destruct (get_position symbol w) as [[[p|]|e] w1]; reflexivity.
Qed.

(** X10. [get_position] never raises.  It calls the position endpoint once;
    when the call succeeds it returns the first entry of the symbol whose
    amount is not zero, or [None] if there is none, and logs nothing; when
    the call fails with any exception it returns [None] and logs the
    error. *)
Theorem get_position_first_open_or_none (symbol : string) (w : World) :
  exists r w',
    get_position symbol w = (Returns r, w') /\
    client w' = client w /\
    trace w' = trace w ++ [EvPositionInformation] /\
    (forall p, r = Some p ->
       p_symbol p = symbol /\ ~ (positionAmt p == 0)%Q) /\
    match futures_position_information (client w)
            (count is_position_information (trace w)) with
    | Returns positions =>
        r = open_position symbol positions /\ log w' = log w
    | Raises e =>
        r = None /\
        last_error (log w') = Some ("Error getting position: ", e)
    end.
Proof.
  rewrite get_position_run.
  destruct (futures_position_information (client w)
              (count is_position_information (trace w))) as [ps|e].
  - eexists. eexists. split; [reflexivity|]. cbn [client trace log].
    repeat split; try reflexivity.
    + apply open_position_found in H. tauto.
    + apply open_position_found in H. tauto.
  - eexists. eexists. split; [reflexivity|].
    cbn [client trace log log_error record_event].
    repeat split; try reflexivity; try discriminate.
    apply last_error_snoc.
Qed.

Lemma close_resolved_run (symbol side : string) (quantity : Q)
    (order_type : string) (price : option Q) (retries : Z) (w : World) :
  close_resolved symbol side quantity order_type price retries w =
    if String.eqb order_type "MARKET" then
      match place (Market symbol side quantity) retries w with
      | (Returns r, w') => (Returns r, w')
      | (Raises e, w') =>
          (Returns None, log_error "Failed to close position: " e w')
      end
    else if String.eqb order_type "LIMIT" then
      match price with
      | None =>
          (Returns None,
           log_error "Failed to close position: "
             (ValueError "Price required for limit orders") w)
      | Some p =>
          match place (Limit symbol side quantity p) retries w with
          | (Returns r, w') => (Returns r, w')
          | (Raises e, w') =>
              (Returns None, log_error "Failed to close position: " e w')
          end
      end
    else
      (Returns None,
       log_error "Failed to close position: "
         (ValueError "Invalid order type") w).
Proof.
  unfold close_resolved, try_except. cbn [place].
  destruct (String.eqb order_type "MARKET").
  - destruct (place_market_order symbol side quantity retries w)
      as [[r|e] w']; reflexivity.
  - destruct (String.eqb order_type "LIMIT"); [|reflexivity].
    destruct price as [p|]; [|reflexivity].
    destruct (place_limit_order symbol side quantity p retries w)
      as [[r|e] w']; reflexivity.
Qed.

(** However it ends, [get_position] returns, with one more call of the
    position endpoint in the trace. *)
Lemma get_position_returns (symbol : string) (w : World) :
  exists r w',
    get_position symbol w = (Returns r, w') /\
    trace w' = trace w ++ [EvPositionInformation].
Proof.
  rewrite get_position_run.
  destruct (futures_position_information (client w) _) as [ps|e];
    eexists; eexists; split; reflexivity.
Qed.

(** Without an order to place, [close_resolved] logs the reason and returns
    [None] in the world it started from. *)
Lemma close_resolved_unplaceable (symbol side : string) (quantity : Q)
    (order_type : string) (price : option Q) (retries : Z) (w : World) :
  order_type <> "MARKET" ->
  order_type <> "LIMIT" \/ price = None ->
  close_resolved symbol side quantity order_type price retries w =
    (Returns None,
     log_error "Failed to close position: "
       (ValueError (if String.eqb order_type "LIMIT"
                    then "Price required for limit orders"
                    else "Invalid order type")) w).
Proof.
  intros Hm Hl. rewrite close_resolved_run.
  destruct (String.eqb_spec order_type "MARKET") as [E|_]; [contradiction|].
  destruct (String.eqb_spec order_type "LIMIT") as [E|E]; [|reflexivity].
  destruct Hl as [Hl| ->]; [contradiction|reflexivity].
Qed.

(** X11. [close_position] with the order type LIMIT and no price returns
    [None] and creates no order, whatever the side, the quantity and the
    client.  It makes no call at all when the side and the quantity are
    both given; otherwise it has fetched the position first, and that one
    call is all it makes.  The logged reason is the missing price, unless
    the position had to be fetched and none was found. *)
Theorem close_position_limit_without_price (symbol : string)
    (side : option string) (quantity : option Q) (retries : Z) (w : World) :
  exists w' reason,
    close_position symbol side quantity "LIMIT" None retries w
    = (Returns None, w') /\
    trace w' = trace w ++ match side, quantity with
                          | Some _, Some _ => []
                          | _, _ => [EvPositionInformation]
                          end /\
    count is_create_order (trace w') = count is_create_order (trace w) /\
    last_error (log w')
    = Some ("Failed to close position: ", ValueError reason) /\
    reason = match side, quantity, fst (get_position symbol w) with
             | Some _, Some _, _ | _, _, Returns (Some _) =>
                 "Price required for limit orders"
             | _, _, _ => "No open position found"
             end.
Proof.
  rewrite close_position_split.
  assert (Hres : forall sd q w1,
            close_resolved symbol sd q "LIMIT" None retries w1
            = (Returns None,
               log_error "Failed to close position: "
                 (ValueError "Price required for limit orders") w1)).
  { intros sd q w1.
    rewrite close_resolved_unplaceable; [reflexivity|discriminate|].
    right. reflexivity. }
  destruct (get_position_returns symbol w)
    as (r & w1 & Hget & Htr).
  destruct side as [sd|], quantity as [q|];
    try (rewrite Hget; cbn [fst]; destruct r as [p|]);
    rewrite ?Hres; eexists; eexists;
    (split; [reflexivity|]); cbn [trace log log_error];
    rewrite ?Htr, ?app_nil_r, ?count_app; cbn [count is_create_order];
    repeat split; try apply last_error_snoc; try lia.
Qed.

(** X12. When the side or the quantity is left out and [get_position]
    finds no open position for the symbol (no entry, a zero amount, or a
    failed call), [close_position] returns [None], logs "No open position
    found", and the fetch of the position is the only call it has made:
    no order is created, whatever the order type. *)
Theorem close_position_without_open_position (symbol : string)
    (side : option string) (quantity : option Q) (order_type : string)
    (price : option Q) (retries : Z) (w : World) :
  side = None \/ quantity = None ->
  fst (get_position symbol w) = Returns None ->
  exists w',
    close_position symbol side quantity order_type price retries w
    = (Returns None, w') /\
    trace w' = trace w ++ [EvPositionInformation] /\
    last_error (log w')
    = Some ("Failed to close position: ",
            ValueError "No open position found").
Proof.
  intros Hopt Hget. rewrite close_position_split.
  destruct (get_position_returns symbol w) as (r & w1 & Hrun & Htr).
  rewrite Hrun in Hget. cbn [fst] in Hget. inversion Hget; subst r.
  assert (Hgoal : exists w',
            (Returns None,
             log_error "Failed to close position: "
               (ValueError "No open position found") w1)
            = (Returns (@None OrderResponse), w') /\
            trace w' = trace w ++ [EvPositionInformation] /\
            last_error (log w')
            = Some ("Failed to close position: ",
                    ValueError "No open position found")).
  { eexists. split; [reflexivity|]. cbn [trace log log_error].
    split; [exact Htr|apply last_error_snoc]. }
  destruct side as [sd|], quantity as [q|]; rewrite ?Hrun.
  - destruct Hopt; discriminate.
  - exact Hgoal.
  - exact Hgoal.
  - exact Hgoal.
Qed.

Lemma close_position_without_open_position_witness :
  exists w',
    close_position "ETHUSDT" None None "MARKET" None 3 world_with_positions
    = (Returns None, w') /\
    trace w' = trace world_with_positions ++ [EvPositionInformation] /\
    last_error (log w')
    = Some ("Failed to close position: ",
            ValueError "No open position found").
Proof.
  apply (close_position_without_open_position "ETHUSDT" None None "MARKET"
           None 3 world_with_positions).
  - left. reflexivity.
  - reflexivity.
Defined.

(** What [close_resolved] appends to the trace is a trace of attempts of
    the order it places, if it places one. *)
Lemma close_resolved_trace (symbol side : string) (quantity : Q)
    (order_type : string) (price : option Q) (retries : Z) (w : World) :
  exists evs : list Event,
    trace (snd (close_resolved symbol side quantity order_type price
                  retries w)) = trace w ++ evs /\
    (forall req reply, In (EvCreateOrder req reply) evs ->
       req_symbol req = symbol /\ req_side req = side /\
       req_quantity req = quantity) /\
    (order_type = "MARKET" -> 1 <= retries ->
     (1 <= count is_create_order evs)%nat) /\
    count is_gateway_call evs
    = (count is_get_server_time evs + count is_create_order evs)%nat.
Proof.
  assert (Hplace : forall o,
            order_symbol o = symbol -> order_side o = side ->
            order_quantity o = quantity ->
            exists evs : list Event,
              trace (snd (match place o retries w with
                          | (Returns r, w') => (Returns r, w')
                          | (Raises e, w') =>
                              (Returns None,
                               log_error "Failed to close position: " e w')
                          end)) = trace w ++ evs /\
              (forall req reply, In (EvCreateOrder req reply) evs ->
                 req_symbol req = symbol /\ req_side req = side /\
                 req_quantity req = quantity) /\
              (1 <= retries -> (1 <= count is_create_order evs)%nat) /\
              count is_gateway_call evs
              = (count is_get_server_time evs
                 + count is_create_order evs)%nat).
  { intros o Hsym Hside Hqty.
    destruct (place_trace o retries w) as (evs & Ht & _ & Ha & _ & Hge).
    exists evs. split.
    - destruct (place o retries w) as [[r|e] w']; exact Ht.
    - split; [|split; [exact Hge|]].
      + intros req reply Hin.
        destruct (attempts_trace_requests o evs Ha req reply Hin)
          as (h1 & h2 & h3).
        rewrite h1, h2, h3. auto.
      + clear Ht Hge. induction Ha as [|se ofs st req reply tl rest Hs Hst Htl _ IH].
        * reflexivity.
        * repeat rewrite count_app. rewrite IH.
          destruct Hs, Hst; destruct Htl as [-> | ->]; cbn; lia. }
  rewrite close_resolved_run.
  destruct (String.eqb_spec order_type "MARKET") as [Em|Em].
  - destruct (Hplace (Market symbol side quantity))
      as (evs & h1 & h2 & h3 & h4); try reflexivity.
    exists evs. split; [exact h1|]. split; [exact h2|].
    split; [|exact h4]. intros _ Hr. exact (h3 Hr).
  - destruct (String.eqb order_type "LIMIT").
    + destruct price as [p|].
      * destruct (Hplace (Limit symbol side quantity p))
          as (evs & h1 & h2 & h3 & h4); try reflexivity.
        exists evs. split; [exact h1|]. split; [exact h2|].
        split; [|exact h4]. intros E. contradiction.
      * exists []. cbn [snd trace log_error]. rewrite app_nil_r.
        split; [reflexivity|]. split; [intros req reply []|].
        split; [intros E; contradiction|reflexivity].
    + exists []. cbn [snd trace log_error]. rewrite app_nil_r.
      split; [reflexivity|]. split; [intros req reply []|].
      split; [intros E; contradiction|reflexivity].
Qed.

Lemma closing_side_sign (p : Position) :
  ((0 < positionAmt p)%Q -> closing_side p = "SELL") /\
  ((positionAmt p < 0)%Q -> closing_side p = "BUY").
Proof.
  unfold closing_side. split; intros H.
  - apply Qltb_lt in H. rewrite H. reflexivity.
  - assert (G : Qltb 0 (positionAmt p) = false)
      by (apply Qltb_ge; lra).
    rewrite G. reflexivity.
Qed.

(** X13. When the side or the quantity is left out and [get_position]
    finds the open position [p], every order [close_position] sends after
    fetching it is for the symbol, with the side given or else inferred
    from the sign of the amount (SELL for a long position, BUY for a short
    one) and with the quantity given or else the absolute value of the
    amount; a market close with [retries >= 1] does send one. *)
Theorem close_position_infers_side_and_quantity (symbol : string)
    (side : option string) (quantity : option Q) (order_type : string)
    (price : option Q) (retries : Z) (w : World) (p : Position) :
  side = None \/ quantity = None ->
  fst (get_position symbol w) = Returns (Some p) ->
  exists evs : list Event,
    trace (snd (close_position symbol side quantity order_type price
                  retries w))
    = trace w ++ [EvPositionInformation] ++ evs /\
    (forall req reply, In (EvCreateOrder req reply) evs ->
       req_symbol req = symbol /\
       match side with
       | Some sd => req_side req = sd
       | None =>
           ((0 < positionAmt p)%Q -> req_side req = "SELL") /\
           ((positionAmt p < 0)%Q -> req_side req = "BUY")
       end /\
       req_quantity req = match quantity with
                          | Some q => q
                          | None => Qabs (positionAmt p)
                          end) /\
    (order_type = "MARKET" -> 1 <= retries ->
     (1 <= count is_create_order evs)%nat).
Proof.
  intros Hopt Hget. rewrite close_position_split.
  destruct (get_position_returns symbol w) as (r & w1 & Hrun & Htr).
  rewrite Hrun in Hget. cbn [fst] in Hget. inversion Hget; subst r.
  set (sd := match side with Some sd => sd | None => closing_side p end).
  set (q := match quantity with
            | Some q => q
            | None => Qabs (positionAmt p)
            end).
  destruct (close_resolved_trace symbol sd q order_type price retries w1)
    as (evs & Ht & Hreq & Hge & _).
  assert (Hgoal :
    trace (snd (close_resolved symbol sd q order_type price retries w1))
    = trace w ++ [EvPositionInformation] ++ evs).
  { rewrite Ht, Htr, <- app_assoc. reflexivity. }
  exists evs. split.
  - destruct side as [s0|], quantity as [q0|]; rewrite ?Hrun;
      try exact Hgoal.
    destruct Hopt; discriminate.
  - split; [|exact Hge].
    intros req reply Hin. destruct (Hreq req reply Hin) as (h1 & h2 & h3).
    split; [exact h1|]. split; [|exact h3].
    subst sd. destruct side as [s0|]; [exact h2|].
    rewrite h2. apply closing_side_sign.
Qed.

Lemma close_position_infers_side_and_quantity_witness :
  exists evs : list Event,
    trace (snd (close_position "XYZ" None None "MARKET" None 3
                  world_with_positions))
    = trace world_with_positions ++ [EvPositionInformation] ++ evs /\
    (forall req reply, In (EvCreateOrder req reply) evs ->
       req_symbol req = "XYZ" /\
       (((0 < -5 # 2)%Q -> req_side req = "SELL") /\
        ((-5 # 2 < 0)%Q -> req_side req = "BUY")) /\
       req_quantity req = Qabs (-5 # 2)) /\
    ("MARKET" = "MARKET" -> 1 <= 3 ->
     (1 <= count is_create_order evs)%nat).
Proof.
  apply (close_position_infers_side_and_quantity "XYZ" None None "MARKET"
           None 3 world_with_positions
           {| p_symbol := "XYZ"; positionAmt := -5 # 2; entryPrice := 12;
              markPrice := 10; unRealizedProfit := 5 |}).
  - left. reflexivity.
  - reflexivity.
Defined.

(** X14. With the side and the quantity given and an order type that is
    neither MARKET nor LIMIT, [close_position] makes no call at all: it
    logs "Invalid order type" and returns [None]. *)
Theorem close_position_invalid_order_type (symbol side : string)
    (quantity : Q) (order_type : string) (price : option Q) (retries : Z)
    (w : World) :
  order_type <> "MARKET" ->
  order_type <> "LIMIT" ->
  exists w',
    close_position symbol (Some side) (Some quantity) order_type price
      retries w = (Returns None, w') /\
    trace w' = trace w /\
    last_error (log w')
    = Some ("Failed to close position: ", ValueError "Invalid order type").
Proof.
  intros Hm Hl. rewrite close_position_split.
  rewrite close_resolved_unplaceable; [|exact Hm|left; exact Hl].
  destruct (String.eqb_spec order_type "LIMIT") as [E|_]; [contradiction|].
  eexists. split; [reflexivity|]. cbn [trace log log_error].
  split; [reflexivity|apply last_error_snoc].
Qed.

Lemma close_position_invalid_order_type_witness :
  exists w',
    close_position "XYZ" (Some "BUY") (Some 1%Q) "STOP" None 3
      world_with_positions = (Returns None, w') /\
    trace w' = trace world_with_positions /\
    last_error (log w')
    = Some ("Failed to close position: ", ValueError "Invalid order type").
Proof.
  apply (close_position_invalid_order_type "XYZ" "BUY" 1 "STOP" None 3
           world_with_positions).
  - discriminate.
  - discriminate.
Defined.

(** ** What a submission never does *)

(** How the loop can end, read on the events it appended: an order is
    returned exactly when the last event is its accepted creation, an
    exception escapes exactly when the last event is the creation that
    raised it and it is not a [BinanceAPIException], and in every other
    case no creation was accepted. *)
Lemma for_in_endings (o : Order) (retries : Z) (l : list Z) (w : World) :
  exists evs : list Event,
    trace (snd (for_in l (attempt_body o retries) w)) = trace w ++ evs /\
    match fst (for_in l (attempt_body o retries) w) with
    | Returns (Return_ (Some order)) =>
        exists evs0 req,
          evs = evs0 ++ [EvCreateOrder req (Returns order)] /\
          count is_created evs0 = 0%nat
    | Returns _ => count is_created evs = 0%nat
    | Raises e =>
        is_api_exception e = false /\
        exists evs0 req,
          evs = evs0 ++ [EvCreateOrder req (Raises e)] /\
          count is_created evs0 = 0%nat
    end.
Proof.
  revert w. induction l as [|a l IH]; intros w.
  - exists []. cbn. rewrite app_nil_r. split; reflexivity.
  - destruct (for_in_cons o retries a l w)
      as (se & ofs & st & req & lg & Hs & Hst & Heq).
    cbv zeta in Heq. rewrite Heq. clear Heq.
    set (reply := futures_create_order (client w)
                    (count is_create_order (trace w)) req).
    assert (Hpre : count is_created (se ++ st) = 0%nat).
    { rewrite count_app. destruct Hs, Hst; reflexivity. }
    set (w1 := Build_World _ _ _ _ _).
    assert (Hw1 : trace w1
                  = trace w ++ (se ++ st) ++ [EvCreateOrder req reply]
                      ++ attempt_tail retries a reply).
    { subst w1. cbn [trace]. repeat rewrite <- app_assoc. reflexivity. }
    clearbody w1. unfold attempt_result, attempt_tail in *.
    destruct reply as [order|e].
    + cbn in Hw1. exists ((se ++ st) ++ [EvCreateOrder req (Returns order)]).
      cbn [fst snd]. split; [exact Hw1|].
      exists (se ++ st), req. split; [reflexivity|exact Hpre].
    + destruct e as [code m|m|m|m|k|m];
        try (cbn in Hw1; eexists; cbn [fst snd];
             split; [exact Hw1|];
             split; [reflexivity|];
             exists (se ++ st), req; split; [reflexivity|exact Hpre]).
      destruct (retries_after retries a
                  (Raises (BinanceAPIException code m))).
      * destruct (IH w1) as (evs & Ht & Hend).
        exists (((se ++ st)
                 ++ [EvCreateOrder req
                       (Raises (BinanceAPIException code m))]
                 ++ [EvSleep 1]) ++ evs).
        split.
        { rewrite Ht, Hw1. repeat rewrite <- app_assoc. reflexivity. }
        assert (Hblock : count is_created
                  ((se ++ st)
                   ++ [EvCreateOrder req
                         (Raises (BinanceAPIException code m))]
                   ++ [EvSleep 1]) = 0%nat).
        { rewrite count_app, Hpre. reflexivity. }
        destruct (fst (for_in l (attempt_body o retries) w1))
          as [[|[order|]]|e].
        -- rewrite count_app, Hblock, Hend. reflexivity.
        -- destruct Hend as (evs0 & req0 & -> & H0).
           eexists. exists req0. split; [apply app_assoc|].
           rewrite count_app, Hblock, H0. reflexivity.
        -- rewrite count_app, Hblock, Hend. reflexivity.
        -- destruct Hend as (Hapi & evs0 & req0 & -> & H0).
           split; [exact Hapi|].
           eexists. exists req0. split; [apply app_assoc|].
           rewrite count_app, Hblock, H0. reflexivity.
      * cbn in Hw1. eexists. cbn [fst snd]. split; [exact Hw1|].
        rewrite count_app, Hpre. reflexivity.
Qed.

Lemma place_endings (o : Order) (retries : Z) (w : World) :
  exists evs : list Event,
    trace (snd (place o retries w)) = trace w ++ evs /\
    match fst (place o retries w) with
    | Returns (Some order) =>
        exists evs0 req,
          evs = evs0 ++ [EvCreateOrder req (Returns order)] /\
          count is_created evs0 = 0%nat
    | Returns None => count is_created evs = 0%nat
    | Raises e =>
        is_api_exception e = false /\
        exists evs0 req,
          evs = evs0 ++ [EvCreateOrder req (Raises e)] /\
          count is_created evs0 = 0%nat
    end.
Proof.
  destruct (for_in_endings o retries (range retries) w) as (evs & Ht & Hend).
  exists evs. rewrite place_unfold.
  destruct (for_in (range retries) (attempt_body o retries) w)
    as [[[|[order|]]|e] w']; cbn [fst snd] in *; auto.
Qed.

(** X15. Whatever the client answers, a submission has at most one order
    accepted by the exchange: if it returns an order, the acceptance of
    that very order is the last event of the call and no creation before
    it was accepted; if it returns [None], no creation was accepted.  So an
    accepted order is always reported and never followed by a
    resubmission. *)
Theorem place_reports_the_accepted_order (o : Order) (retries : Z)
    (w : World) (r : option OrderResponse) :
  fst (place o retries w) = Returns r ->
  exists evs : list Event,
    trace (snd (place o retries w)) = trace w ++ evs /\
    (count is_created evs <= 1)%nat /\
    match r with
    | Some order =>
        exists evs0 req,
          evs = evs0 ++ [EvCreateOrder req (Returns order)] /\
          count is_created evs0 = 0%nat
    | None => count is_created evs = 0%nat
    end.
Proof.
  intros Hr. destruct (place_endings o retries w) as (evs & Ht & Hend).
  exists evs. split; [exact Ht|]. rewrite Hr in Hend.
  destruct r as [order|].
  - split; [|exact Hend]. destruct Hend as (evs0 & req & -> & H0).
    rewrite count_app, H0. cbn. lia.
  - split; [lia|exact Hend].
Qed.

Lemma place_reports_the_accepted_order_witness :
  exists evs : list Event,
    trace (snd (place (Market "BTCUSDT" "BUY" 1) 3 world_two_rejections))
    = trace world_two_rejections ++ evs /\
    (count is_created evs <= 1)%nat /\
    exists evs0 req,
      evs = evs0 ++ [EvCreateOrder req (Returns sample_order)] /\
      count is_created evs0 = 0%nat.
Proof.
  apply (place_reports_the_accepted_order (Market "BTCUSDT" "BUY" 1) 3
           world_two_rejections (Some sample_order)).
  vm_compute. reflexivity.
Defined.

(** X16. A submission never lets a [BinanceAPIException] escape: the only
    exceptions it raises are the other ones raised by the order creation
    itself, and then that creation is the last event of the call, with no
    retry, and no order was accepted. *)
Theorem place_raises_only_foreign_exceptions (o : Order) (retries : Z)
    (w : World) (e : exn) :
  fst (place o retries w) = Raises e ->
  is_api_exception e = false /\
  exists (evs0 : list Event) req,
    trace (snd (place o retries w))
    = trace w ++ evs0 ++ [EvCreateOrder req (Raises e)] /\
    count is_created evs0 = 0%nat.
Proof.
  intros Hr. destruct (place_endings o retries w) as (evs & Ht & Hend).
  rewrite Hr in Hend. destruct Hend as (Hapi & evs0 & req & -> & H0).
  split; [exact Hapi|]. exists evs0, req. split; [exact Ht|exact H0].
Qed.

Lemma place_raises_only_foreign_exceptions_witness :
  is_api_exception (ConnectionError "Connection reset") = false /\
  exists (evs0 : list Event) req,
    trace (snd (place (Limit "BTCUSDT" "BUY" 1 50000) 3
                  world_order_unreachable))
    = trace world_order_unreachable ++ evs0
        ++ [EvCreateOrder req (Raises (ConnectionError "Connection reset"))]
    /\ count is_created evs0 = 0%nat.
Proof.
  apply (place_raises_only_foreign_exceptions (Limit "BTCUSDT" "BUY" 1 50000)
           3 world_order_unreachable (ConnectionError "Connection reset")).
  vm_compute. reflexivity.
Defined.

(** An attempt ends with [continue] exactly when it has slept. *)
Lemma attempt_result_continue (retries a : Z)
    (reply : outcome OrderResponse) :
  (retries_after retries a reply = true /\
   attempt_result retries a reply = Returns Continue /\
   attempt_tail retries a reply = [EvSleep 1] /\
   a < retries - 1) \/
  (retries_after retries a reply = false /\
   attempt_result retries a reply <> Returns Continue /\
   attempt_tail retries a reply = []).
Proof.
  unfold attempt_result, attempt_tail.
  destruct (retries_after retries a reply) eqn:E.
  - left. repeat split.
    + destruct reply as [order|[code m|m|m|m|k|m]]; try discriminate E.
      reflexivity.
    + destruct reply as [order|[code m|m|m|m|k|m]]; try discriminate E.
      cbn in E. apply andb_true_iff in E. destruct E as [_ E].
      apply Z.ltb_lt in E. exact E.
  - right. repeat split.
    destruct reply as [order|[code m|m|m|m|k|m]]; discriminate.
Qed.

(** Over the attempts [a, ..., retries-1], the loop sleeps one second
    between two consecutive order creations and at no other time. *)
Lemma for_in_sleeps (o : Order) (retries : Z) (len : nat) :
  forall (a : nat) (w : World),
    Z.of_nat (a + len) = retries ->
    (1 <= len)%nat ->
    exists evs : list Event,
      trace (snd (for_in (map Z.of_nat (seq a len))
                    (attempt_body o retries) w)) = trace w ++ evs /\
      count is_create_order evs = S (count is_sleep evs) /\
      count is_one_second_sleep evs = count is_sleep evs /\
      (count is_create_order evs <= len)%nat.
Proof.
  induction len as [|len IH]; intros a w Hret Hlen; [lia|].
  cbn [seq map].
  destruct (for_in_cons o retries (Z.of_nat a)
              (map Z.of_nat (seq (S a) len)) w)
    as (se & ofs & st & req & lg & Hs & Hst & Heq).
  cbv zeta in Heq. rewrite Heq. clear Heq.
  set (reply := futures_create_order (client w)
                  (count is_create_order (trace w)) req).
  set (w1 := Build_World _ _ _ _ _).
  assert (Hw1 : trace w1
                = trace w ++ (se ++ st ++ [EvCreateOrder req reply]
                                ++ attempt_tail retries (Z.of_nat a) reply))
    by reflexivity.
  clearbody w1.
  assert (Hpre : forall tl,
            count is_create_order (se ++ st ++ [EvCreateOrder req reply] ++ tl)
            = S (count is_create_order tl) /\
            count is_sleep (se ++ st ++ [EvCreateOrder req reply] ++ tl)
            = count is_sleep tl /\
            count is_one_second_sleep
              (se ++ st ++ [EvCreateOrder req reply] ++ tl)
            = count is_one_second_sleep tl).
  { intros tl. repeat rewrite count_app.
    destruct Hs, Hst; cbn; repeat split; lia. }
  destruct (attempt_result_continue retries (Z.of_nat a) reply)
    as [(_ & Hres & Htl & Hlt) | (_ & Hres & Htl)];
    rewrite Htl in Hw1.
  - rewrite Hres.
    destruct (IH (S a) w1) as (evs & Ht & h1 & h2 & h3); [lia|lia|].
    exists ((se ++ st ++ [EvCreateOrder req reply] ++ [EvSleep 1]) ++ evs).
    split.
    { rewrite Ht, Hw1. symmetry. apply app_assoc. }
    destruct (Hpre [EvSleep 1]) as (p1 & p2 & p3).
    repeat rewrite (count_app _ (se ++ _) evs).
    rewrite p1, p2, p3, h1, h2. cbn. repeat split; lia.
  - exists (se ++ st ++ [EvCreateOrder req reply] ++ []).
    destruct (Hpre []) as (p1 & p2 & p3). rewrite p1, p2, p3. cbn.
    split; [|repeat split; lia].
    destruct (attempt_result retries (Z.of_nat a) reply) as [[|r]|e];
      [contradiction|exact Hw1|exact Hw1].
Qed.

(** X17. In every submission with [retries >= 1], whatever the client
    answers, the sleeps are one fewer than the order creations and each
    lasts one second: the loop sleeps between two consecutive attempts and
    never after the last one. *)
Theorem place_sleeps_between_attempts (o : Order) (retries : Z)
    (w : World) :
  1 <= retries ->
  exists evs : list Event,
    trace (snd (place o retries w)) = trace w ++ evs /\
    count is_create_order evs = S (count is_sleep evs) /\
    count is_one_second_sleep evs = count is_sleep evs /\
    (count is_sleep evs < Z.to_nat retries)%nat.
Proof.
  intros Hret.
  destruct (for_in_sleeps o retries (Z.to_nat retries) 0 w)
    as (evs & Ht & h1 & h2 & h3); [lia|lia|].
  exists evs. rewrite place_world. unfold range.
  repeat split; try assumption. lia.
Qed.

Lemma place_sleeps_between_attempts_witness :
  exists evs : list Event,
    trace (snd (place (Market "BTCUSDT" "BUY" 1) 3 world_clock_skewed))
    = trace world_clock_skewed ++ evs /\
    count is_create_order evs = S (count is_sleep evs) /\
    count is_one_second_sleep evs = count is_sleep evs /\
    (count is_sleep evs < Z.to_nat 3)%nat.
Proof.
  apply (place_sleeps_between_attempts (Market "BTCUSDT" "BUY" 1) 3
           world_clock_skewed).
  lia.
Defined.

(** ** What a submission sends *)

Lemma stamp_events_request_of (o : Order) (offset : Z) (evs : list Event)
    (req : OrderRequest) :
  stamp_events o offset evs req ->
  req = request_of o (req_timestamp req) /\
  (is_market o = true <-> req_timestamp req <> None).
Proof.
  destruct 1; cbn; (split; [reflexivity|]); split; congruence.
Qed.

(** X18. Every request a submission sends, at the first attempt and at
    every retry, carries the arguments of the call unchanged: the symbol,
    the side, the quantity, the order type MARKET, LIMIT or STOP, and for
    limit and stop-limit orders the price, the stop price and the time in
    force GTC.  Only the timestamp may differ between attempts; a market
    order carries one, limit and stop-limit orders carry none. *)
Theorem place_sends_the_order_unchanged (o : Order) (retries : Z)
    (w : World) :
  exists evs : list Event,
    trace (snd (place o retries w)) = trace w ++ evs /\
    forall req reply, In (EvCreateOrder req reply) evs ->
      req = request_of o (req_timestamp req) /\
      (is_market o = true <-> req_timestamp req <> None).
Proof.
  destruct (place_trace o retries w) as (evs & Ht & _ & Ha & _).
  exists evs. split; [exact Ht|]. clear Ht.
  induction Ha as [|se ofs st req0 reply0 tl rest Hs Hst Htl _ IH];
    intros req reply Hin.
  - destruct Hin.
  - repeat (apply in_app_or in Hin; destruct Hin as [Hin|Hin]).
    + destruct Hs; cbn in Hin; intuition discriminate.
    + destruct Hst; cbn in Hin; intuition discriminate.
    + cbn in Hin. destruct Hin as [Hin|[]]. inversion Hin; subst.
      eapply stamp_events_request_of; eassumption.
    + destruct Htl as [-> | ->]; cbn in Hin; intuition discriminate.
    + eapply IH; eassumption.
Qed.

(** ** The position closer and exceptions *)

(** X19. When the market order it places fails with an exception that the
    submission lets escape (a transport error at the order creation),
    [close_position] logs it under "Failed to close position" and returns
    [None], in the world the submission left; and in no case at all does
    [close_position] raise. *)
Theorem close_position_swallows_exceptions (symbol sd : string) (q : Q)
    (price : option Q) (retries : Z) (w : World) (e : exn) :
  fst (place_market_order symbol sd q retries w) = Raises e ->
  close_position symbol (Some sd) (Some q) "MARKET" price retries w
  = (Returns None,
     log_error "Failed to close position: " e
       (snd (place_market_order symbol sd q retries w))) /\
  (forall side quantity order_type price' retries' w0,
     exists r w',
       close_position symbol side quantity order_type price' retries' w0
       = (Returns r, w')).
Proof.
  intros Hraise. split.
  - rewrite close_position_split, close_resolved_run.
    change (String.eqb "MARKET" "MARKET") with true. cbv iota.
    cbn [place].
    destruct (place_market_order symbol sd q retries w) as [[r|e'] w'];
      cbn [fst snd] in *; [discriminate|].
    inversion Hraise. reflexivity.
  - intros side quantity order_type price' retries' w0.
    unfold close_position, try_except.
    match goal with |- context [match ?b w0 with _ => _ end] =>
      destruct (b w0) as [[r|e0] w'] end.
    + eexists. eexists. reflexivity.
    + eexists. eexists. reflexivity.
Qed.

Lemma close_position_swallows_exceptions_witness :
  close_position "XYZ" (Some "BUY") (Some (5 # 2)) "MARKET" None 3
    world_order_unreachable
  = (Returns None,
     log_error "Failed to close position: "
       (ConnectionError "Connection reset")
       (snd (place_market_order "XYZ" "BUY" (5 # 2) 3
               world_order_unreachable))) /\
  (forall side quantity order_type price' retries' w0,
     exists r w',
       close_position "XYZ" side quantity order_type price' retries' w0
       = (Returns r, w')).
Proof.
  apply (close_position_swallows_exceptions "XYZ" "BUY" (5 # 2) None 3
           world_order_unreachable (ConnectionError "Connection reset")).
  vm_compute. reflexivity.
Defined.

(** ** The clock synchroniser *)

(** X20. When the time endpoint answers, [sync_time] reads the local clock
    once after the call and sets the offset to the server time minus
    [int(now * 1000)], the product being the binary64 one, so that the local
    time in milliseconds it has just computed, corrected by the offset, is
    the server time; it returns without raising. *)
Theorem sync_time_sets_offset (w : World) (server_time : Z) :
  get_server_time (client w) (count is_get_server_time (trace w))
  = Returns server_time ->
  let now := wall_clock w (count is_time (trace w)) in
  exists w',
    sync_time w = (Returns tt, w') /\
    trace w' = trace w ++ [EvGetServerTime (Returns server_time); EvTime now]
    /\ time_offset w' = server_time - py_int (float_mul now 1000) /\
    py_int (float_mul now 1000) + time_offset w' = server_time /\
    client w' = client w.
Proof.
  intros Hst now. unfold sync_time, try_except, mbind, Py_bind,
    client_get_server_time. cbv zeta. rewrite Hst.
  cbn [time_time record_event trace client wall_clock].
  rewrite count_app. cbn [count is_time]. rewrite Nat.add_0_r.
  eexists. split; [reflexivity|].
  cbn [trace time_offset client set_time_offset logger].
  split; [symmetry; apply (app_assoc (trace w) [_] [_])|].
  repeat split; try reflexivity. subst now. lia.
Qed.

Lemma sync_time_sets_offset_witness :
  let now := wall_clock world_clock_fraction
               (count is_time (trace world_clock_fraction)) in
  exists w',
    sync_time world_clock_fraction = (Returns tt, w') /\
    trace w' = trace world_clock_fraction
                 ++ [EvGetServerTime (Returns 1704403955700); EvTime now]
    /\ time_offset w' = 1704403955700 - py_int (float_mul now 1000) /\
    py_int (float_mul now 1000) + time_offset w' = 1704403955700 /\
    client w' = client world_clock_fraction.
Proof.
  apply (sync_time_sets_offset world_clock_fraction 1704403955700).
  reflexivity.
Defined.

(** At the clock reading 1704403955.6529999 the product by 1000 is rounded
    to 1704403955653.0 before it is truncated, and the offset is 47, not the
    48 of the exact product. *)
Example sync_time_rounds_the_product :
  py_int (wall_clock world_clock_fraction 0 * 1000) = 1704403955652 /\
  py_int (float_mul (wall_clock world_clock_fraction 0) 1000)
  = 1704403955653 /\
  time_offset (snd (sync_time world_clock_fraction)) = 47.
Proof. repeat split; vm_compute; reflexivity. Qed.

(** X21. When the time endpoint fails with any exception, [sync_time] does
    not raise: it logs a warning, does not read the local clock, and resets
    the offset to zero, whatever offset an earlier synchronisation had
    set. *)
Theorem sync_time_degrades_to_zero (w : World) (e : exn) :
  get_server_time (client w) (count is_get_server_time (trace w))
  = Raises e ->
  exists w',
    sync_time w = (Returns tt, w') /\
    time_offset w' = 0 /\
    trace w' = trace w ++ [EvGetServerTime (Raises e)] /\
    log w' = log w ++ [{| levelname := WARNING;
                          msg := "Time sync failed: "; exc := Some e |}].
Proof.
  intros Hst. unfold sync_time, try_except, mbind, Py_bind,
    client_get_server_time. cbv zeta. rewrite Hst.
  eexists. split; [reflexivity|]. repeat split.
Qed.

Lemma sync_time_degrades_to_zero_witness :
  time_offset world_time_unreachable = 250 /\
  exists w',
    sync_time world_time_unreachable = (Returns tt, w') /\
    time_offset w' = 0 /\
    trace w' = trace world_time_unreachable
                 ++ [EvGetServerTime (Raises (ConnectionError "timed out"))]
    /\ log w' = log world_time_unreachable
                  ++ [{| levelname := WARNING; msg := "Time sync failed: ";
                         exc := Some (ConnectionError "timed out") |}].
Proof.
  split; [reflexivity|].
  apply (sync_time_degrades_to_zero world_time_unreachable
           (ConnectionError "timed out")).
  reflexivity.
Defined.

(** ** Edge cases of the delegation *)

(** X22. Called with [retries] zero or negative, each of the three
    submissions returns [None] and leaves the world untouched: no
    synchronisation, no order, no log record tells the caller that nothing
    was attempted. *)
Theorem place_without_attempts (o : Order) (retries : Z) (w : World) :
  retries <= 0 ->
  place o retries w = (Returns None, w).
Proof.
  intros Hret. rewrite place_unfold. unfold range.
  replace (Z.to_nat retries) with 0%nat by lia. reflexivity.
Qed.

Lemma place_without_attempts_witness :
  place (StopLimit "BTCUSDT" "SELL" 1 50000 49000) (-1) world_with_metadata
  = (Returns None, world_with_metadata).
Proof.
  apply (place_without_attempts (StopLimit "BTCUSDT" "SELL" 1 50000 49000)
           (-1) world_with_metadata).
  lia.
Defined.

(** X23. With the side and the quantity given, [close_position] does not
    look at the position: for the order type MARKET, or LIMIT with a price,
    it is the corresponding submission, with the same result and the same
    calls, whenever that submission returns. *)
Theorem close_position_delegates (symbol sd : string) (q : Q)
    (order_type : string) (price : option Q) (retries : Z) (w : World)
    (o : Order) (r : option OrderResponse) :
  (order_type = "MARKET" /\ o = Market symbol sd q) \/
  (exists p, order_type = "LIMIT" /\ price = Some p
             /\ o = Limit symbol sd q p) ->
  fst (place o retries w) = Returns r ->
  close_position symbol (Some sd) (Some q) order_type price retries w
  = place o retries w.
Proof.
  intros Hkind Hr. rewrite close_position_split, close_resolved_run.
  destruct Hkind as [[-> ->] | (p & -> & -> & ->)].
  - change (String.eqb "MARKET" "MARKET") with true. cbv iota.
    destruct (place (Market symbol sd q) retries w) as [[r0|e] w'];
      [reflexivity|discriminate].
  - change (String.eqb "LIMIT" "MARKET") with false.
    change (String.eqb "LIMIT" "LIMIT") with true. cbv iota.
    destruct (place (Limit symbol sd q p) retries w) as [[r0|e] w'];
      [reflexivity|discriminate].
Qed.

Lemma close_position_delegates_witness :
  close_position "BTCUSDT" (Some "SELL") (Some (1 # 2)) "LIMIT"
    (Some 51000%Q) 3 world_with_positions
  = place (Limit "BTCUSDT" "SELL" (1 # 2) 51000) 3 world_with_positions.
Proof.
  apply (close_position_delegates "BTCUSDT" "SELL" (1 # 2) "LIMIT"
           (Some 51000%Q) 3 world_with_positions
           (Limit "BTCUSDT" "SELL" (1 # 2) 51000) (Some sample_order)).
  - right. exists 51000%Q. repeat split.
  - vm_compute. reflexivity.
Defined.

(** * The claims on the validator and the position closer *)

(** ** The quantity check *)







(** ** A failed metadata call *)

(** C6. When the metadata call fails, both checks answer false exactly when
    the exception is a [BinanceAPIException], the error the exchange
    reports; any other exception (a connection failure, a malformed reply)
    escapes to the caller.  Either way the metadata endpoint has been called
    once and nothing else. *)
Theorem validators_on_failed_metadata (symbol : string) (quantity : Q)
    (w : World) (e : exn) :
  futures_exchange_info (client w) (count is_exchange_info (trace w))
  = Raises e ->
  fst (validate_symbol symbol w)
  = (if is_api_exception e then Returns false else Raises e) /\
  fst (validate_quantity symbol quantity w)
  = (if is_api_exception e then Returns false else Raises e) /\
  trace (snd (validate_symbol symbol w)) = trace w ++ [EvExchangeInfo] /\
  trace (snd (validate_quantity symbol quantity w))
  = trace w ++ [EvExchangeInfo].
Proof.
  intros Hinfo. rewrite validate_symbol_run, validate_quantity_run, Hinfo.
  destruct (is_api_exception e); repeat split; reflexivity.
Qed.

Lemma validators_on_failed_metadata_witness :
  fst (validate_symbol "BTCUSDT" world_metadata_rejected)
  = Returns false /\
  fst (validate_quantity "BTCUSDT" 1 world_metadata_rejected)
  = Returns false /\
  trace (snd (validate_symbol "BTCUSDT" world_metadata_rejected))
  = trace world_metadata_rejected ++ [EvExchangeInfo] /\
  trace (snd (validate_quantity "BTCUSDT" 1 world_metadata_rejected))
  = trace world_metadata_rejected ++ [EvExchangeInfo].
Proof.
  apply (validators_on_failed_metadata "BTCUSDT" 1 world_metadata_rejected
           (BinanceAPIException (-1003) "Too many requests.")).
  reflexivity.
Defined.

(** With the network down, the connection error leaves both checks as an
    exception: neither answers false. *)
Lemma validators_raise_on_transport_error :
  fst (validate_symbol "BTCUSDT" world_metadata_unreachable)
  = Raises (ConnectionError "Connection refused") /\
  fst (validate_quantity "BTCUSDT" 1 world_metadata_unreachable)
  = Raises (ConnectionError "Connection refused").
Proof. split; vm_compute; reflexivity. Qed.

(** ** Closing without a price *)

(** C5. [close_position] with the order type LIMIT and no price returns
    [None] with an error logged, and creates no order, whatever the side,
    the quantity and the client.  It calls no endpoint at all when the side
    and the quantity are both given; when one of them is left out it has
    fetched the position first, and that is the one call it makes.  The
    reason logged is the missing price, unless the position was fetched and
    none is open. *)
Theorem close_limit_without_price_calls (symbol : string)
    (side : option string) (quantity : option Q) (retries : Z) (w : World) :
  exists w' reason,
    close_position symbol side quantity "LIMIT" None retries w
    = (Returns None, w') /\
    last_error (log w')
    = Some ("Failed to close position: ", ValueError reason) /\
    count is_create_order (trace w') = count is_create_order (trace w) /\
    count is_gateway_call (trace w')
    = (count is_gateway_call (trace w)
       + match side, quantity with
         | Some _, Some _ => 0
         | _, _ => 1
         end)%nat /\
    count is_position_information (trace w')
    = (count is_position_information (trace w)
       + match side, quantity with
         | Some _, Some _ => 0
         | _, _ => 1
         end)%nat /\
    reason = match side, quantity, fst (get_position symbol w) with
             | Some _, Some _, _ | _, _, Returns (Some _) =>
                 "Price required for limit orders"
             | _, _, _ => "No open position found"
             end.
Proof.
  rewrite close_position_split.
  assert (Hres : forall sd q w1,
            close_resolved symbol sd q "LIMIT" None retries w1
            = (Returns None,
               log_error "Failed to close position: "
                 (ValueError "Price required for limit orders") w1)).
  { intros sd q w1.
    rewrite close_resolved_unplaceable; [reflexivity|discriminate|].
    right. reflexivity. }
  destruct (get_position_returns symbol w) as (r & w1 & Hget & Htr).
  destruct side as [sd|], quantity as [q|];
    try (rewrite Hget; cbn [fst]; destruct r as [p|]);
    rewrite ?Hres; eexists; eexists;
    (split; [reflexivity|]); cbn [trace log log_error];
    (split; [apply last_error_snoc|]);
    rewrite ?Htr, ?count_app;
    cbn [count is_create_order is_gateway_call is_position_information];
    repeat split; lia.
Qed.

(** A limit close without a price, a side or a quantity asks the exchange
    for the position before it fails. *)
Lemma close_limit_without_price_fetches_position :
  fst (close_position "XYZ" None None "LIMIT" None 3 world_with_positions)
  = Returns None /\
  trace (snd (close_position "XYZ" None None "LIMIT" None 3
                world_with_positions))
  = [EvPositionInformation] /\
  count is_gateway_call
    (trace (snd (close_position "XYZ" None None "LIMIT" None 3
                   world_with_positions)))
  = 1%nat.
Proof. repeat split; vm_compute; reflexivity. Qed.

(** ** Closing the whole position *)

(** With an order to place, [close_resolved] leaves the trace that the
    submission of that order leaves. *)
Lemma close_resolved_places (symbol side : string) (quantity : Q)
    (order_type : string) (price : option Q) (retries : Z) (w : World)
    (o : Order) :
  (order_type = "MARKET" /\ o = Market symbol side quantity) \/
  (exists p, order_type = "LIMIT" /\ price = Some p /\
             o = Limit symbol side quantity p) ->
  trace (snd (close_resolved symbol side quantity order_type price
                retries w))
  = trace (snd (place o retries w)).
Proof.
  intros H. rewrite close_resolved_run.
  destruct H as [[-> ->]|(p & -> & -> & ->)]; cbn [String.eqb Ascii.eqb Bool.eqb];
    destruct (place _ retries w) as [[r|e] w']; reflexivity.
Qed.

(** C7. When neither the side nor the quantity is given and the position
    endpoint answers with an entry of the symbol whose amount is not zero,
    the first such entry [p] decides the order: every request
    [close_position] sends is for the symbol, sells if the amount of [p] is
    positive and buys if it is negative, and its quantity is the absolute
    value of the amount.  A market close, or a limit close with a price,
    with at least one attempt does send such a request, right after the one
    fetch of the position. *)
Theorem close_position_closes_the_whole_position (symbol : string)
    (order_type : string) (price : option Q) (retries : Z) (w : World)
    (positions : list Position) (p : Position) :
  futures_position_information (client w)
    (count is_position_information (trace w)) = Returns positions ->
  open_position symbol positions = Some p ->
  exists evs : list Event,
    trace (snd (close_position symbol None None order_type price retries w))
    = trace w ++ [EvPositionInformation] ++ evs /\
    ~ (positionAmt p == 0)%Q /\
    (forall req reply, In (EvCreateOrder req reply) evs ->
       req_symbol req = symbol /\
       req_side req = (if Qltb 0 (positionAmt p) then "SELL" else "BUY") /\
       ((0 < positionAmt p)%Q -> req_side req = "SELL") /\
       ((positionAmt p < 0)%Q -> req_side req = "BUY") /\
       req_quantity req = Qabs (positionAmt p)) /\
    (order_type = "MARKET" \/ (order_type = "LIMIT" /\ price <> None) ->
     1 <= retries -> (1 <= count is_create_order evs)%nat).
Proof.
  intros Hps Hopen. rewrite close_position_split, get_position_run, Hps.
  rewrite Hopen.
  set (w1 := record_event EvPositionInformation w).
  destruct (close_resolved_trace symbol (closing_side p)
              (Qabs (positionAmt p)) order_type price retries w1)
    as (evs & Ht & Hreq & _ & _).
  exists evs. split.
  { rewrite Ht. subst w1. cbn [trace record_event].
    rewrite <- app_assoc. reflexivity. }
  split; [apply (open_position_found symbol positions p Hopen)|].
  split.
  - intros req reply Hin. destruct (Hreq req reply Hin) as (h1 & h2 & h3).
    split; [exact h1|]. split; [exact h2|].
    rewrite h2. split; [apply closing_side_sign|].
    split; [apply closing_side_sign|exact h3].
  - intros Hplace Hr.
    assert (Ho : exists o,
              trace (snd (close_resolved symbol (closing_side p)
                            (Qabs (positionAmt p)) order_type price
                            retries w1))
              = trace (snd (place o retries w1))).
    { destruct Hplace as [Hm|[Hl Hp]].
      - exists (Market symbol (closing_side p) (Qabs (positionAmt p))).
        apply close_resolved_places. left. split; [exact Hm|reflexivity].
      - destruct price as [pr|]; [|contradiction].
        exists (Limit symbol (closing_side p) (Qabs (positionAmt p)) pr).
        apply close_resolved_places. right. exists pr.
        split; [exact Hl|]. split; reflexivity. }
    destruct Ho as [o Ho].
    destruct (place_trace o retries w1) as (evs' & Ht' & _ & _ & _ & Hge).
    rewrite Ho, Ht' in Ht. apply app_inv_head in Ht. subst evs'.
    exact (Hge Hr).
Qed.

Lemma close_position_closes_the_whole_position_witness :
  exists evs : list Event,
    trace (snd (close_position "XYZ" None None "MARKET" None 3
                  world_with_positions))
    = trace world_with_positions ++ [EvPositionInformation] ++ evs /\
    ~ (-5 # 2 == 0)%Q /\
    (forall req reply, In (EvCreateOrder req reply) evs ->
       req_symbol req = "XYZ" /\
       req_side req = (if Qltb 0 (-5 # 2) then "SELL" else "BUY") /\
       ((0 < -5 # 2)%Q -> req_side req = "SELL") /\
       ((-5 # 2 < 0)%Q -> req_side req = "BUY") /\
       req_quantity req = Qabs (-5 # 2)) /\
    ("MARKET" = "MARKET" \/ ("MARKET" = "LIMIT" /\ @None Q <> None) ->
     1 <= 3 -> (1 <= count is_create_order evs)%nat).
Proof.
  apply (close_position_closes_the_whole_position "XYZ" "MARKET" None 3
           world_with_positions sample_positions
           {| p_symbol := "XYZ"; positionAmt := -5 # 2; entryPrice := 12;
              markPrice := 10; unRealizedProfit := 5 |}).
  - reflexivity.
  - reflexivity.
Defined.

(** The short position of two and a half XYZ is closed by buying two and a
    half, in one request. *)
Example close_position_buys_back_a_short :
  trace (snd (close_position "XYZ" None None "MARKET" None 3
                world_with_positions))
  = [ EvPositionInformation;
      EvGetServerTime (Returns 1700000000250); EvTime 1700000000;
      EvTime 1700000001;
      EvCreateOrder
        {| req_symbol := "XYZ"; req_side := "BUY"; req_type := "MARKET";
           req_timeInForce := None; req_quantity := 5 # 2;
           req_price := None; req_stopPrice := None;
           req_timestamp := Some 1700000001250 |}
        (Returns sample_order) ].
Proof. vm_compute. reflexivity. Qed.

(** ** Nothing to close *)

Lemma open_position_none (symbol : string) (positions : list Position) :
  (forall p, In p positions -> p_symbol p = symbol ->
             (positionAmt p == 0)%Q) ->
  open_position symbol positions = None.
Proof.
  intros Hflat. unfold open_position.
  destruct (find _ positions) as [p|] eqn:E; [|reflexivity].
  exfalso.
  destruct (open_position_found symbol positions p E) as (Hin & Hs & Hnz).
  exact (Hnz (Hflat p Hin Hs)).
Qed.

(** C8. When the side or the quantity is left out and the position endpoint
    answers with no entry of the symbol, or only with entries whose amount
    is zero, [close_position] returns [None] and logs the reason "No open
    position found"; the fetch of the position is the only call it has
    made, and no order is created, whatever the order type, the price and
    the number of attempts. *)
Theorem close_position_needs_an_open_position (symbol : string)
    (side : option string) (quantity : option Q) (order_type : string)
    (price : option Q) (retries : Z) (w : World)
    (positions : list Position) :
  side = None \/ quantity = None ->
  futures_position_information (client w)
    (count is_position_information (trace w)) = Returns positions ->
  (forall p, In p positions -> p_symbol p = symbol ->
             (positionAmt p == 0)%Q) ->
  exists w',
    close_position symbol side quantity order_type price retries w
    = (Returns None, w') /\
    last_error (log w')
    = Some ("Failed to close position: ",
            ValueError "No open position found") /\
    trace w' = trace w ++ [EvPositionInformation] /\
    count is_create_order (trace w') = count is_create_order (trace w).
Proof.
  intros Hopt Hps Hflat. rewrite close_position_split, get_position_run, Hps.
  rewrite (open_position_none symbol positions Hflat).
  assert (Hgoal : exists w',
            (Returns None,
             log_error "Failed to close position: "
               (ValueError "No open position found")
               (record_event EvPositionInformation w))
            = (Returns (@None OrderResponse), w') /\
            last_error (log w')
            = Some ("Failed to close position: ",
                    ValueError "No open position found") /\
            trace w' = trace w ++ [EvPositionInformation] /\
            count is_create_order (trace w')
            = count is_create_order (trace w)).
  { eexists. split; [reflexivity|]. cbn [trace log log_error record_event].
    split; [apply last_error_snoc|]. split; [reflexivity|].
    rewrite count_app. cbn. lia. }
  destruct side as [sd|], quantity as [q|]; try exact Hgoal.
  destruct Hopt; discriminate.
Qed.

Lemma close_position_needs_an_open_position_witness :
  exists w',
    close_position "XYZ" None None "MARKET" None 3 world_flat_position
    = (Returns None, w') /\
    last_error (log w')
    = Some ("Failed to close position: ",
            ValueError "No open position found") /\
    trace w' = trace world_flat_position ++ [EvPositionInformation] /\
    count is_create_order (trace w')
    = count is_create_order (trace world_flat_position).
Proof.
  apply (close_position_needs_an_open_position "XYZ" None None "MARKET"
           None 3 world_flat_position flat_positions).
  - left. reflexivity.
  - reflexivity.
  - intros p [<-|[<-|[]]]; cbn; intros H; [discriminate H|reflexivity].
Defined.
